(** * Sheet reconciliation, form import / dirty tracking and the
      engine-profile selector of the modeler's tab components

    A shallow embedding of three client components:

    - [EngineProfile]  : app/tabs/EngineProfile.js
                         ([engineProfilesEqual], [EngineProfileSelection]);
    - [FormEditor]     : app/tabs/form/FormEditor.js
                         (import state machine, dirty tracking, [getXML]);
    - [MultiSheetTab]  : app/tabs/MultiSheetTab.js
                         ([sheetsChanged], [switchSheet], [handleImport]).

    React components are modelled by explicit state passing: a method takes
    the component (props, state, cached state) and returns the component
    after the call together with the trace of calls it made to its
    collaborators (host callbacks, the editing engine). *)

From Stdlib Require Import ZArith List String Bool Lia.
From Stdlib Require Import Permutation Sorted.
Import ListNotations.

Local Open Scope string_scope.
Local Open Scope list_scope.
Local Open Scope Z_scope.

(** ** JavaScript values used by the components *)

(** [a === b] on values that are a string or [undefined]. *)
Definition strict_eq_ostring (a b : option string) : bool :=
  match a, b with
  | Some x, Some y => String.eqb x y
  | None, None => true
  | _, _ => false
  end.

(** Truthiness of a string: only the empty string is falsy. *)
Definition truthy_string (s : string) : bool :=
  negb (String.eqb s "").

(** [a || b] where [a] is a string or [null] and [b] a string. *)
Definition or_string (a : option string) (b : string) : string :=
  match a with
  | Some s => if truthy_string s then s else b
  | None => b
  end.

(** Thrown or reported error objects. [err_warnings] is the optional
    [warnings] property an import error may carry. *)
Record Err := mkErr {
  message : string;
  err_warnings : option (list string)
}.

(** ** Engine profile selector (EngineProfile.js) *)

Module EngineProfile.

(** [{ executionPlatform, executionPlatformVersion }]; a field that is
    [undefined] is [None]. *)
Record EngineProfile := mkProfile {
  executionPlatform : option string;
  executionPlatformVersion : option string
}.

(** [engineProfilesEqual(a, b)]; [None] is a nil ([null] / [undefined])
    argument. *)
Definition engineProfilesEqual (a b : option EngineProfile) : bool :=
  match a, b with
  | Some a, Some b =>
      strict_eq_ostring (executionPlatform a) (executionPlatform b)
      && strict_eq_ostring (executionPlatformVersion a)
                           (executionPlatformVersion b)
  | _, _ => false
  end.

(** Hook state of [EngineProfileSelection]: the staged selection and the
    error flag ([null], modelled as [false], or [true]). *)
Record Selection := mkSelection {
  selectedEngineProfile : option EngineProfile;
  error : bool
}.

(** Calls the selection makes on its props. *)
Inductive PropCall :=
| SetEngineProfile (p : EngineProfile)   (* props.setEngineProfile(p) *)
| OnClose.                               (* onClose() *)

(** [useState(engineProfile)], [useState(null)]. *)
Definition initial (engineProfile : option EngineProfile) : Selection :=
  mkSelection engineProfile false.

(** [onSelectEngineProfile(newExecutionPlatform, newExecutionPlatformVersion)] *)
Definition onSelectEngineProfile
    (newExecutionPlatform newExecutionPlatformVersion : string)
    (s : Selection) : Selection :=
  let newEngineProfile :=
    mkProfile (Some newExecutionPlatform) (Some newExecutionPlatformVersion) in
  if engineProfilesEqual (selectedEngineProfile s) (Some newEngineProfile)
  then mkSelection None (error s)
  else mkSelection (Some newEngineProfile) false.

(** The [setEngineProfile] closure bound to the Apply button;
    [engineProfile] is the prop. *)
Definition setEngineProfile (engineProfile : option EngineProfile)
    (s : Selection) : Selection * list PropCall :=
  match selectedEngineProfile s with
  | None => (mkSelection (selectedEngineProfile s) true, [])
  | Some selected =>
      if engineProfilesEqual (Some selected) engineProfile
      then (s, [])
      else (s, [SetEngineProfile selected; OnClose])
  end.

(** [{ error && <p className="error">Select one option.</p> }] *)
Definition renderedError (s : Selection) : option string :=
  if error s then Some "Select one option." else None.

(** The options the selector offers. *)
Definition options : list EngineProfile :=
  [ mkProfile (Some "Camunda Platform") (Some "7.15");
    mkProfile (Some "Camunda Cloud") (Some "1.0");
    mkProfile (Some "Camunda Cloud") (Some "1.1") ].

End EngineProfile.

(** ** Form editor wrapper (form/FormEditor.js) *)

Module FormEditor.

Import EngineProfile.

(** How the promise returned by [form.importSchema(json)] settles: it
    resolves with [{ error, warnings }] or rejects with an error. *)
Inductive Settled :=
| Resolved (error : option Err) (warnings : option (list string))
| Rejected (err : Err).

(** The editing engine ([./editor/FormEditor], its command stack and
    modeling service) and the [JSON] built-ins are collaborators outside
    the component: the component is written against this interface. *)
Class FormEngine (Form json : Type) := {
  newForm : Form;                                      (* new Form({}) *)
  JSON_parse : string -> Err + json;                   (* throws on inl *)
  JSON_stringify : json -> string;                     (* (_, null, 2) *)
  form_importSchema : Form -> json -> Form * Settled;
  form_getSchema : Form -> json;
  form_saveSchema : Form -> json;
  commandStack_stackIdx : Form -> Z;    (* form.get('commandStack')._stackIdx *)
  commandStack_canUndo : Form -> bool;
  commandStack_canRedo : Form -> bool;
  modeling_editFormField : Form -> EngineProfile -> Form;
  get_executionPlatform : json -> option string;       (* None: undefined *)
  get_executionPlatformVersion : json -> option string
}.

Section Component.

Context {Form json : Type} {engine : FormEngine Form json}.

(** The cached state created by [createCachedState]. *)
Record Cached := mkCached {
  form : Form;
  lastSchema : option string;                        (* None: null *)
  stackIdx : Z;
  engineProfile : option EngineProfile               (* None: null *)
}.

Record Props := mkProps {
  xml : string;
  onChanged_isFunction : bool
}.

(** The editor state [handleChanged] reports and stores. *)
Record NewState := mkNewState {
  defaultUndoRedo : bool;
  dirty : bool;
  inputActive : bool;
  redo : bool;
  save : bool;
  undo : bool
}.

Record State := mkState {
  importing : bool;
  reported : option NewState
}.

Record FormEditor := mkFormEditor {
  props : Props;
  state : State;
  _isMounted : bool;
  cached : Cached
}.

(** Calls the component makes on its collaborators. [Invoke_importSchema]
    marks the entry of the component's own [importSchema] method.
    [OnImport error warnings] records the arguments [onImport] is called
    with; an argument that is not passed is [None]. Console output is not
    recorded. *)
Inductive Call :=
| Invoke_importSchema
| Form_importSchema (j : json)
| Form_saveSchema
| Modeling_editFormField (p : EngineProfile)
| OnImport (error : option Err) (warnings : option (list string))
| OnChanged (s : NewState).

(** An object passed to [setCached]: a key that is absent is [None]. *)
Record Patch := mkPatch {
  patch_engineProfile : option (option EngineProfile);
  patch_lastSchema : option (option string);
  patch_stackIdx : option Z
}.

Definition merge {A : Type} (new : option A) (old : A) : A :=
  match new with Some v => v | None => old end.

(** Modelled from the spec: [getCached] / [setCached] of
    [CachedComponent] (app/cached) are not part of the sources; the
    cached editor state is a process-local record owned by the tab, and
    [setCached] merges the given keys into it. *)
Definition setCached (p : Patch) (c : FormEditor) : FormEditor :=
  let k := cached c in
  mkFormEditor (props c) (state c) (_isMounted c)
    (mkCached (form k)
              (merge (patch_lastSchema p) (lastSchema k))
              (merge (patch_stackIdx p) (stackIdx k))
              (merge (patch_engineProfile p) (engineProfile k))).

(** [this.setState({ importing })] *)
Definition setState_importing (b : bool) (c : FormEditor) : FormEditor :=
  mkFormEditor (props c) (mkState b (reported (state c)))
               (_isMounted c) (cached c).

(** [this.setState(newState)] in [handleChanged]. *)
Definition setState_newState (s : NewState) (c : FormEditor) : FormEditor :=
  mkFormEditor (props c) (mkState (importing (state c)) (Some s))
               (_isMounted c) (cached c).

(** The engine mutating the (shared) form instance held in the cache. *)
Definition withForm (f : Form) (c : FormEditor) : FormEditor :=
  let k := cached c in
  mkFormEditor (props c) (state c) (_isMounted c)
    (mkCached f (lastSchema k) (stackIdx k) (engineProfile k)).

(** [static createCachedState()] *)
Definition createCachedState : Cached :=
  let form := newForm in
  mkCached form None (commandStack_stackIdx form) None.

(** [isImportNeeded(prevProps = {})]; [prevProps] is [None] when the
    argument is omitted, so that [prevSchema] is [undefined]. *)
Definition isImportNeeded (prevProps : option Props) (c : FormEditor) : bool :=
  if importing (state c) then false
  else
    let schema := xml (props c) in
    let prevSchema := option_map xml prevProps in
    if strict_eq_ostring (Some schema) prevSchema then false
    else negb (strict_eq_ostring (Some schema) (lastSchema (cached c))).

(** [isDirty()] *)
Definition isDirty (c : FormEditor) : bool :=
  negb (commandStack_stackIdx (form (cached c)) =? stackIdx (cached c)).

(** [handleImport(error, warnings)] *)
Definition handleImport (error : option Err) (warnings : option (list string))
    (c : FormEditor) : FormEditor * list Call :=
  let form := form (cached c) in
  let stackIdx := commandStack_stackIdx form in
  let schema := xml (props c) in
  let c1 :=
    match error with
    | Some _ => setCached (mkPatch (Some None) (Some None) None) c
    | None =>
        let executionPlatform := get_executionPlatform (form_getSchema form) in
        let executionPlatformVersion :=
          get_executionPlatformVersion (form_getSchema form) in
        let engineProfile :=
          match executionPlatform with
          | Some _ => Some (mkProfile executionPlatform executionPlatformVersion)
          | None => None
          end in
        setCached (mkPatch (Some engineProfile) (Some (Some schema))
                           (Some stackIdx)) c
    end in
  let c2 := setState_importing false c1 in
  (c2, [OnImport error None]).

(** The tail of [importSchema] after the [try] / [catch]. *)
Definition settleImport (error : option Err) (warnings : option (list string))
    (c : FormEditor) : FormEditor * list Call :=
  if _isMounted c then handleImport error warnings c else (c, []).

(** [async importSchema()]. The [await] is modelled without events
    interleaved between the engine call and its continuation. *)
Definition importSchema (c : FormEditor) : FormEditor * list Call :=
  let c := setState_importing true c in
  let schema := xml (props c) in
  let form := form (cached c) in
  match JSON_parse schema with
  | inl err =>
      let '(c', calls) := settleImport (Some err) (err_warnings err) c in
      (c', Invoke_importSchema :: calls)
  | inr schemaJSON =>
      let '(form', settled) := form_importSchema form schemaJSON in
      let c := withForm form' c in
      let '(error, warnings) :=
        match settled with
        | Resolved error warnings => (error, warnings)
        | Rejected err => (Some err, err_warnings err)
        end in
      let '(c', calls) := settleImport error warnings c in
      (c', Invoke_importSchema :: Form_importSchema schemaJSON :: calls)
  end.

(** [checkImport(prevProps)] *)
Definition checkImport (prevProps : option Props) (c : FormEditor)
    : FormEditor * list Call :=
  if negb (isImportNeeded prevProps c) then (c, [])
  else importSchema c.

(** [componentDidUpdate(prevProps)] *)
Definition componentDidUpdate (prevProps : Props) (c : FormEditor)
    : FormEditor * list Call :=
  checkImport (Some prevProps) c.

(** [componentDidMount()]; attaching the form to the DOM and registering
    the listeners are left to the engine. *)
Definition componentDidMount (c : FormEditor) : FormEditor * list Call :=
  checkImport None (mkFormEditor (props c) (state c) true (cached c)).

(** [componentWillUnmount()] *)
Definition componentWillUnmount (c : FormEditor) : FormEditor :=
  mkFormEditor (props c) (state c) false (cached c).

(** A props update: the component receives [newProps] and React calls
    [componentDidUpdate] with the props it had before. *)
Definition updateProps (newProps : Props) (c : FormEditor)
    : FormEditor * list Call :=
  componentDidUpdate (props c)
    (mkFormEditor newProps (state c) (_isMounted c) (cached c)).

(** [handleChanged]; [isInputActive()] reads the DOM and is an input
    here. The [editMenu] entry added to the payload comes from
    [getFormEditMenu(newState)] and is not recorded. *)
Definition handleChanged (isInputActive : bool) (c : FormEditor)
    : FormEditor * list Call :=
  let form := form (cached c) in
  let newState :=
    mkNewState isInputActive (isDirty c) isInputActive
               (commandStack_canRedo form) true (commandStack_canUndo form) in
  (setState_newState newState c,
   if onChanged_isFunction (props c) then [OnChanged newState] else []).

(** [getXML()] *)
Definition getXML (c : FormEditor) : string * FormEditor * list Call :=
  let form := form (cached c) in
  let lastSchema := lastSchema (cached c) in
  let stackIdx := commandStack_stackIdx form in
  if negb (isDirty c) then (or_string lastSchema (xml (props c)), c, [])
  else
    let schema := JSON_stringify (form_saveSchema form) in
    (schema,
     setCached (mkPatch None (Some (Some schema)) (Some stackIdx)) c,
     [Form_saveSchema]).

(** [setEngineProfile(engineProfile)] *)
Definition setEngineProfile (engineProfile : EngineProfile) (c : FormEditor)
    : FormEditor * list Call :=
  let form := form (cached c) in
  let c := withForm (modeling_editFormField form engineProfile) c in
  (setCached (mkPatch (Some (Some engineProfile)) None None) c,
   [Modeling_editFormField engineProfile]).

(** The selector rendered by the form editor is wired with
    [setEngineProfile={ this.setEngineProfile }]: the calls of the
    selection on its props reach the component as follows ([onClose]
    belongs to the overlay and does not touch the component). *)
Fixpoint dispatchPropCalls (calls : list PropCall) (c : FormEditor)
    : FormEditor :=
  match calls with
  | [] => c
  | SetEngineProfile p :: r => dispatchPropCalls r (fst (setEngineProfile p c))
  | OnClose :: r => dispatchPropCalls r c
  end.

(** Whether a trace records an entry of [importSchema]. *)
Definition invokesImportSchema (calls : list Call) : bool :=
  existsb (fun e => match e with Invoke_importSchema => true | _ => false end)
          calls.

(** Whether a trace records a serialization of the form. *)
Definition serializesForm (calls : list Call) : bool :=
  existsb (fun e => match e with Form_saveSchema => true | _ => false end)
          calls.

(** Later engine activity (user edits, undo, redo): the form instance
    changes, the cache entries of the component do not. *)
Definition engineActions (acts : list (Form -> Form)) (c : FormEditor)
    : FormEditor :=
  withForm (fold_left (fun f act => act f) acts (form (cached c))) c.

(** The import trigger in the words of the specification, for a props
    update to [newProps]: [importSchema] is invoked if and only if the
    supplied schema differs from the cached [lastSchema] and no import is
    in flight. *)
Definition importTrigger_as_specified (newProps : Props) (c : FormEditor)
    : Prop :=
  invokesImportSchema (snd (updateProps newProps c)) = true <->
  (lastSchema (cached c) <> Some (xml newProps)
   /\ importing (state c) = false).

End Component.

Arguments Cached : clear implicits.
Arguments FormEditor : clear implicits.
Arguments Call : clear implicits.

End FormEditor.

(** ** Multi-sheet tab container (MultiSheetTab.js) *)

Module MultiSheetTab.

(** A sheet provider. Providers are compared with [===], that is by
    object identity: [provider_ref] is the identity of the object. *)
Record Provider := mkProvider {
  provider_ref : nat;
  provider_type : string;
  defaultName : string;
  isFallback : bool
}.

(** [p === q] on providers. *)
Definition same_provider (p q : Provider) : bool :=
  Nat.eqb (provider_ref p) (provider_ref q).

(** The own properties of a sheet object; [order] is a number when
    present. *)
Record Sheet := mkSheet {
  id : string;
  name : string;
  isDefault : bool;
  provider : Provider;
  type : string;
  order : option Z
}.

(** A sheet object: its identity [ref] and its properties. Object spread
    creates an object with a new identity. *)
Record SheetObj := mkObj {
  ref : nat;
  fields : Sheet
}.

(** [a === b] on sheet objects. *)
Definition same_sheet (a b : SheetObj) : bool :=
  Nat.eqb (ref a) (ref b).

(** [{ ...newSheet, provider }] *)
Definition wire (provider : Provider) (s : Sheet) : Sheet :=
  mkSheet (id s) (name s) (isDefault s) provider (type s) (order s).

(** [t.order || 0]: an absent order and the falsy order [0] give [0]. *)
Definition order_or_0 (s : Sheet) : Z :=
  match order s with
  | Some z => if z =? 0 then 0 else z
  | None => 0
  end.

(** [{ ...t, order: t.order || 0 }] *)
Definition defaultOrder (s : Sheet) : Sheet :=
  mkSheet (id s) (name s) (isDefault s) (provider s) (type s)
          (Some (order_or_0 s)).

(** [l.map(x => ({ ...x, ... }))]: the new objects take the identities
    [next], [next + 1], ... *)
Fixpoint spreadMap (f : Sheet -> Sheet) (l : list SheetObj) (next : nat)
    : list SheetObj :=
  match l with
  | [] => []
  | x :: r => mkObj next (f (fields x)) :: spreadMap f r (S next)
  end.

(** The comparator [(a, b) => a.order - b.order]. With an absent order
    the difference is [NaN], which [sort] treats as [0]. *)
Definition compareFn (a b : SheetObj) : Z :=
  match order (fields a), order (fields b) with
  | Some x, Some y => x - y
  | _, _ => 0
  end.

(** [Array.prototype.sort] is a stable sort; it is modelled by insertion
    sort, which keeps elements that compare equal in their input order. *)
Fixpoint insert (cmp : SheetObj -> SheetObj -> Z) (x : SheetObj)
    (l : list SheetObj) : list SheetObj :=
  match l with
  | [] => [x]
  | y :: r => if cmp x y <=? 0 then x :: y :: r else y :: insert cmp x r
  end.

Definition sort (cmp : SheetObj -> SheetObj -> Z) (l : list SheetObj)
    : list SheetObj :=
  fold_right (insert cmp) [] l.

(** [x] is not after [y] in ascending order: both orders are numbers and
    that of [x] is at most that of [y]. *)
Definition le_order (x y : SheetObj) : Prop :=
  match order (fields x), order (fields y) with
  | Some a, Some b => a <= b
  | _, _ => False
  end.

(** The order of [x] is present. *)
Definition ordered (x : SheetObj) : Prop := order (fields x) <> None.

(** The sheets whose order is the number [k]. *)
Definition orderIs (k : Z) (s : Sheet) : bool :=
  match order s with
  | Some z => z =? k
  | None => false
  end.

(** The cached state of the tab; a key never set is [None]. *)
Record Cached := mkCached {
  sheets : option (list SheetObj);
  activeSheet : option SheetObj;
  lastXML : option string
}.

(** An object passed to [setCached]: a key that is absent is [None];
    [activeSheet] may be passed as [undefined]. *)
Record Patch := mkPatch {
  patch_sheets : option (list SheetObj);
  patch_activeSheet : option (option SheetObj);
  patch_lastXML : option string
}.

Record Props := mkProps {
  xml : string;
  providers : list Provider
}.

(** Payloads of [props.onAction]. *)
Inductive Action :=
| Emit_activeSheetChanged (activeSheet : SheetObj)  (* 'emit-event' *)
| Display_notification (warnings : nat)             (* 'display-notification' *)
| Show_dialog (error : Err).                        (* 'show-dialog' *)

(** Calls the tab makes on its collaborators. *)
Inductive Call :=
| Editor_getXML                     (* this.editorRef.current.getXML() *)
| SetCached (p : Patch)             (* this.setCached(p) *)
| OnAction (a : Action)
| OnWarning (warning : string)
| OnError (error : Err).

(** How an [async] method settles. *)
Inductive Outcome :=
| Fulfilled
| Failed (e : Err).

(** The editor mounted in the tab, behind [editorRef]: [getXML] settles
    with the document or with an error, and may change the editor. *)
Class Editor (E : Type) := {
  editor_getXML : E -> E * (Err + string)
}.

Section Component.

Context {E : Type} {editorClass : Editor E}.

(** The tab: props, cached state, the mounted editor and the next
    unused object identity of the heap. *)
Record Tab := mkTab {
  props : Props;
  cached : Cached;
  editor : E;
  nextRef : nat
}.

Definition merge {A : Type} (new : option A) (old : A) : A :=
  match new with Some v => v | None => old end.

(** Modelled from the spec: [getCached] / [setCached] of
    [CachedComponent] (app/cached) are not part of the sources; the
    cached state is a process-local record owned by the tab, and
    [setCached] merges the given keys into it. *)
Definition setCached (p : Patch) (t : Tab) : Tab :=
  let k := cached t in
  mkTab (props t)
        (mkCached (match patch_sheets p with
                   | Some l => Some l
                   | None => sheets k
                   end)
                  (merge (patch_activeSheet p) (activeSheet k))
                  (match patch_lastXML p with
                   | Some x => Some x
                   | None => lastXML k
                   end))
        (editor t) (nextRef t).

Definition allocated (n : nat) (t : Tab) : Tab :=
  mkTab (props t) (cached t) (editor t) (nextRef t + n)%nat.

Definition withEditor (e : E) (t : Tab) : Tab :=
  mkTab (props t) (cached t) e (nextRef t).

(** [getDefaultSheets()] *)
Definition getDefaultSheets (t : Tab) : list SheetObj * Tab :=
  let fix go (ps : list Provider) (next : nat) : list SheetObj :=
    match ps with
    | [] => []
    | provider :: r =>
        mkObj next (mkSheet (provider_type provider) (defaultName provider)
                            true provider (provider_type provider) None)
        :: go r (S next)
    end in
  (go (providers (props t)) (nextRef t),
   allocated (List.length (providers (props t))) t).

(** The constructor: default sheets are cached when none are. *)
Definition construct (t : Tab) : Tab :=
  match sheets (cached t) with
  | Some _ => t
  | None =>
      let '(sheets, t) := getDefaultSheets t in
      setCached (mkPatch (Some sheets) (Some (hd_error sheets)) None) t
  end.

Definition typeError : Err :=
  mkErr "TypeError: Cannot read properties of undefined" None.

(** [sheetsChanged(newSheets, newActiveSheet)]; [newActiveSheet] is
    [None] when it is not supplied. Reading [activeSheet.provider]
    throws when no active sheet is cached. *)
Definition sheetsChanged (newSheets : list SheetObj)
    (newActiveSheet : option SheetObj) (t : Tab) : Err + Tab :=
  match activeSheet (cached t) with
  | None => inl typeError
  | Some activeSheet =>
      let sheets :=
        match sheets (cached t) with Some l => l | None => [] end in
      let provider := provider (fields activeSheet) in
      let wiredNewSheets := spreadMap (wire provider) newSheets (nextRef t) in
      let t := allocated (List.length newSheets) t in
      let kept :=
        filter (fun sheet => negb (same_provider (MultiSheetTab.provider
                                                    (fields sheet)) provider))
               sheets
        ++ wiredNewSheets in
      let sheets :=
        sort compareFn (spreadMap defaultOrder kept (nextRef t)) in
      let t := allocated (List.length kept) t in
      let activeSheet :=
        match newActiveSheet with
        | Some newActiveSheet =>
            find (fun s => String.eqb (id (fields s))
                                      (id (fields newActiveSheet))) sheets
        | None => Some activeSheet
        end in
      inr (setCached (mkPatch (Some sheets) (Some activeSheet) None) t)
  end.

(** [isXMLChange(prevXML, xml)] *)
Definition isXMLChange (prevXML xml : string) : bool :=
  negb (String.eqb prevXML xml).

(** [isDirty(state = {})]; [dirty] is the truthiness of [state.dirty]. *)
Definition isDirty (dirty : bool) (t : Tab) : bool :=
  if dirty then true
  else
    match lastXML (cached t) with
    | None => false
    | Some lastXML =>
        if negb (truthy_string lastXML) then false
        else isXMLChange lastXML (xml (props t))
    end.

(** [openFallback()] *)
Definition openFallback (t : Tab) : Tab * list Call :=
  let '(sheets, t) :=
    match sheets (cached t) with
    | Some l => (l, t)
    | None => getDefaultSheets t
    end in
  match find (fun sheet => isFallback (provider (fields sheet))) sheets with
  | Some fallback =>
      let p := mkPatch None (Some (Some fallback)) None in
      (setCached p t, [SetCached p])
  | None => (t, [])
  end.

(** [handleImport(error, warnings)]: the [onImport] callback handed to
    the editor. Only the synchronous part of [showImportErrorDialog]
    is recorded. *)
Definition handleImport (error : option Err)
    (warnings : option (list string)) (t : Tab) : Tab * list Call :=
  let warned :=
    match warnings with
    | Some (w :: ws) =>
        map OnWarning (w :: ws)
        ++ match error with
           | None =>
               [OnAction (Display_notification (List.length (w :: ws)))]
           | Some _ => []
           end
    | _ => []
    end in
  match error with
  | Some error =>
      let '(t, calls) := openFallback t in
      (t, warned ++ calls ++ [OnAction (Show_dialog error); OnError error])
  | None => (t, warned)
  end.

(** [async switchSheet(sheet)] *)
Definition switchSheet (sheet : SheetObj) (t : Tab)
    : Tab * list Call * Outcome :=
  match activeSheet (cached t) with
  | None => (t, [], Failed typeError)
  | Some activeSheet =>
      if same_sheet sheet activeSheet then (t, [], Fulfilled)
      else if same_provider (provider (fields sheet))
                            (provider (fields activeSheet))
      then
        let p := mkPatch None (Some (Some sheet)) None in
        (setCached p t, [SetCached p], Fulfilled)
      else
        let '(e, settled) := editor_getXML (editor t) in
        let t := withEditor e t in
        match settled with
        | inl err => (t, [Editor_getXML], Failed err)
        | inr xml =>
            let p := mkPatch None (Some (Some sheet)) (Some xml) in
            (setCached p t,
             [Editor_getXML; SetCached p;
              OnAction (Emit_activeSheetChanged sheet)],
             Fulfilled)
        end
  end.

(** Whether a trace records a call of the editor's [getXML]. *)
Definition callsGetXML (calls : list Call) : bool :=
  existsb (fun c => match c with Editor_getXML => true | _ => false end)
          calls.

(** The warnings a trace hands to the host through [onWarning]. *)
Fixpoint surfacedWarnings (calls : list Call) : list string :=
  match calls with
  | [] => []
  | OnWarning w :: r => w :: surfacedWarnings r
  | _ :: r => surfacedWarnings r
  end.

End Component.

Arguments Tab : clear implicits.

End MultiSheetTab.

(** ** The form editor mounted in a tab

    The tab renders the editor with [onImport={ this.handleImport }]: each
    [onImport] call of the editor runs the tab's [handleImport] with the
    arguments of the call. *)

Module Mounted.

Section Relay.

Context {Form json E : Type} {engine : FormEditor.FormEngine Form json}
  {editorClass : MultiSheetTab.Editor E}.

Fixpoint relayImport (calls : list (FormEditor.Call json))
    (t : MultiSheetTab.Tab E) : MultiSheetTab.Tab E * list MultiSheetTab.Call :=
  match calls with
  | [] => (t, [])
  | FormEditor.OnImport error warnings :: r =>
      let '(t, here) := MultiSheetTab.handleImport error warnings t in
      let '(t, later) := relayImport r t in
      (t, here ++ later)
  | _ :: r => relayImport r t
  end.

(** The form editor is one of the editors a tab mounts behind
    [editorRef]; its [getXML] is synchronous and always yields a document. *)
#[export] Instance formEditor_editor
    : MultiSheetTab.Editor (FormEditor.FormEditor Form) := {|
  MultiSheetTab.editor_getXML := fun c =>
    let '(xml, c', _) := FormEditor.getXML c in (c', inr xml)
|}.

End Relay.

End Mounted.

(** ** A test double of the collaborators

    A small editing engine and a small editor, used to run the components
    on concrete inputs. Documents are the names of three fixtures. *)

Module Fixture.

Import EngineProfile.

Record Json := mkJson {
  json_executionPlatform : option string;
  json_executionPlatformVersion : option string;
  json_components : list string
}.

Record Form := mkForm {
  form_schema : Json;
  form_stackIdx : Z
}.

Definition emptyJson : Json := mkJson None None [].

Definition plainJson : Json := mkJson None None ["textfield"].

Definition cloudJson : Json :=
  mkJson (Some "Camunda Cloud") (Some "1.1") ["textfield"].

Definition brokenJson : Json := mkJson None None ["unknown"].

Definition syntaxError : Err := mkErr "SyntaxError: Unexpected token" None.

Definition importError : Err :=
  mkErr "form field of type <unknown> not supported"
        (Some ["unknown form field <unknown>"]).

Definition parse (s : string) : Err + Json :=
  if String.eqb s "plain.form" then inr plainJson
  else if String.eqb s "cloud.form" then inr cloudJson
  else if String.eqb s "broken.form" then inr brokenJson
  else inl syntaxError.

Definition stringify (j : Json) : string :=
  match json_executionPlatform j with
  | Some _ => "cloud.form"
  | None => match json_components j with
            | [] => "empty.form"
            | c :: [] => if String.eqb c "unknown" then "broken.form"
                         else "plain.form"
            | _ :: _ :: _ => "edited.form"
            end
  end.

(** Importing clears the command stack; a schema with an unknown field
    type is rejected with an error that carries a warning. *)
Definition import (f : Form) (j : Json) : Form * FormEditor.Settled :=
  match json_components j with
  | c :: _ =>
      if String.eqb c "unknown" then (f, FormEditor.Rejected importError)
      else (mkForm j (-1), FormEditor.Resolved None (Some []))
  | [] => (mkForm j (-1), FormEditor.Resolved None (Some []))
  end.

Definition editFormField (f : Form) (p : EngineProfile) : Form :=
  mkForm (mkJson (executionPlatform p) (executionPlatformVersion p)
                 (json_components (form_schema f)))
         (form_stackIdx f + 1).

#[export] Instance engine : FormEditor.FormEngine Form Json := {|
  FormEditor.newForm := mkForm emptyJson (-1);
  FormEditor.JSON_parse := parse;
  FormEditor.JSON_stringify := stringify;
  FormEditor.form_importSchema := import;
  FormEditor.form_getSchema := form_schema;
  FormEditor.form_saveSchema := form_schema;
  FormEditor.commandStack_stackIdx := form_stackIdx;
  FormEditor.commandStack_canUndo := fun f => 0 <=? form_stackIdx f;
  FormEditor.commandStack_canRedo := fun _ => false;
  FormEditor.modeling_editFormField := editFormField;
  FormEditor.get_executionPlatform := json_executionPlatform;
  FormEditor.get_executionPlatformVersion := json_executionPlatformVersion
|}.

(** A freshly constructed and mounted form editor showing [xml]. *)
Definition mounted (xml : string) : FormEditor.FormEditor Form :=
  FormEditor.mkFormEditor
    (FormEditor.mkProps xml true)
    (FormEditor.mkState false None)
    true
    FormEditor.createCachedState.

(** The editor after the failed import of the fixture with an unknown
    field type. *)
Definition afterFailedImport : FormEditor.FormEditor Form :=
  fst (FormEditor.importSchema (mounted "broken.form")).

(** A user edit: one command executed on the command stack. *)
Definition edit (f : Form) : Form :=
  mkForm (mkJson (json_executionPlatform (form_schema f))
                 (json_executionPlatformVersion (form_schema f))
                 ("checkbox" :: json_components (form_schema f)))
         (form_stackIdx f + 1).

(** An editor whose document is its state; [getXML] rejects on an empty
    document. *)
#[export] Instance editor : MultiSheetTab.Editor string := {|
  MultiSheetTab.editor_getXML := fun doc =>
    if String.eqb doc "" then (doc, inl syntaxError) else (doc, inr doc)
|}.

Definition formProvider : MultiSheetTab.Provider :=
  MultiSheetTab.mkProvider 0 "form" "Form" false.

Definition jsonProvider : MultiSheetTab.Provider :=
  MultiSheetTab.mkProvider 1 "json" "JSON" true.

(** A tab with the two providers, as its constructor leaves it. *)
Definition tab : MultiSheetTab.Tab string :=
  MultiSheetTab.construct
    (MultiSheetTab.mkTab
       (MultiSheetTab.mkProps "plain.form" [formProvider; jsonProvider])
       (MultiSheetTab.mkCached None None None)
       "plain.form"
       2).

(** The default sheets of [tab]; the form sheet is active. *)
Definition formSheet : MultiSheetTab.SheetObj :=
  MultiSheetTab.mkObj 2
    (MultiSheetTab.mkSheet "form" "Form" true formProvider "form" None).

Definition jsonSheet : MultiSheetTab.SheetObj :=
  MultiSheetTab.mkObj 3
    (MultiSheetTab.mkSheet "json" "JSON" true jsonProvider "json" None).

(** Sheets reported by the form editor: two pages, the second one listed
    first and the first one without an order. *)
Definition reported : list MultiSheetTab.SheetObj :=
  [ MultiSheetTab.mkObj 50
      (MultiSheetTab.mkSheet "page-2" "Page 2" false formProvider "form"
                             (Some 2));
    MultiSheetTab.mkObj 51
      (MultiSheetTab.mkSheet "page-1" "Page 1" false formProvider "form"
                             None) ].

End Fixture.

(** ** Log panel (Log.js) *)

Module Log.

(** [{ height, open }] *)
Record Layout := mkLayout {
  height : Z;
  open : bool
}.

Definition DEFAULT_LAYOUT : Layout := mkLayout 130 false.

(** A log entry; [action] is the click handler, by identity. A property
    that is absent is [None]. *)
Record Entry := mkEntry {
  message : option string;
  action : option nat;
  category : option string
}.

(** The [entries] prop is an array; arrays are compared by identity. *)
Record Entries := mkEntries {
  entries_ref : nat;
  items : list Entry
}.

Record Props := mkProps {
  entries : Entries;
  layout : Layout
}.

(** The component: its props and the instance fields [originalHeight]
    and [currentHeight] ([None] while never assigned). *)
Record Log := mkLog {
  props : Props;
  originalHeight : option Z;
  currentHeight : option Z
}.

(** The properties of a keyboard event the component reads. *)
Record KeyEvent := mkKeyEvent {
  keyCode : Z;
  ctrlKey : bool;
  metaKey : bool
}.

(** Calls the component makes: on its props, on the event and on the DOM. *)
Inductive Call :=
| OnLayoutChanged (log : Layout)   (* props.onLayoutChanged({ log }) *)
| PreventDefault                   (* event.preventDefault() *)
| Copy                             (* selectText(panel); execCommand('copy') *)
| ScrollIntoView (idx : nat).      (* node.scrollIntoView() *)

(** What [render] puts out for one entry. *)
Record EntryView := mkEntryView {
  data_idx : nat;
  msg : string;
  link : option nat;               (* <a onClick={ action }> around msg *)
  categoryView : option string
}.

Definition domError : Err :=
  mkErr "TypeError: Cannot read properties of null" None.

(** [changeLayout(newLayout)] *)
Definition changeLayout (newLayout : Layout) : list Call :=
  [OnLayoutChanged newLayout].

(** [toggle()] *)
Definition toggle (c : Log) : list Call :=
  let layout := layout (props c) in
  changeLayout (mkLayout (height layout) (negb (open layout))).

(** [handleResizeStart(event)]; starting the drag itself is left to
    [dragger]. *)
Definition handleResizeStart (c : Log) : Log :=
  mkLog (props c) (currentHeight c) (currentHeight c).

(** [handleResize(_, delta)] with [y = delta.y]. With [originalHeight]
    never assigned the difference is [NaN], and [NaN > 25] is false. The
    constructor wraps the handler in [throttle], which decides when it
    runs, not what it does. *)
Definition handleResize (y : Z) (c : Log) : list Call :=
  if y =? 0 then []
  else
    match originalHeight c with
    | Some originalHeight =>
        let newHeight := originalHeight - y in
        let open := 25 <? newHeight in
        let height := if open then newHeight else height DEFAULT_LAYOUT in
        changeLayout (mkLayout height open)
    | None => changeLayout (mkLayout (height DEFAULT_LAYOUT) false)
    end.

(** The entry of the [entries.map] callback in [render]. *)
Definition renderEntry (idx : nat) (entry : Entry) : EntryView :=
  let msg :=
    match message entry with
    | Some message => if truthy_string message then message else " "
    | None => " "
    end in
  mkEntryView idx msg (action entry)
    match category entry with
    | Some category => if truthy_string category then Some category else None
    | None => None
    end.

Fixpoint renderEntries (l : list Entry) (idx : nat) : list EntryView :=
  match l with
  | [] => []
  | entry :: r => renderEntry idx entry :: renderEntries r (S idx)
  end.

(** [render()]: records [currentHeight]; the entries are put out only
    while the log is open. *)
Definition render (c : Log) : Log * list EntryView :=
  let layout := layout (props c) in
  (mkLog (props c) (originalHeight c) (Some (height layout)),
   if open layout then renderEntries (items (entries (props c))) 0 else []).

(** [checkFocus()]: [panel.querySelector] looks the last index up among
    the nodes rendered; calling [scrollIntoView] on a missing node throws. *)
Definition checkFocus (c : Log) : Err + list Call :=
  let lastIdx := Z.of_nat (List.length (items (entries (props c)))) - 1 in
  if negb (lastIdx =? -1) then
    match find (fun v => Z.of_nat (data_idx v) =? lastIdx) (snd (render c)) with
    | Some node => inr [ScrollIntoView (data_idx node)]
    | None => inl domError
    end
  else inr [].

(** [componentDidUpdate(prevProps)] *)
Definition componentDidUpdate (prevProps : Props) (c : Log) : Err + list Call :=
  if open (layout (props c))
     && negb (Nat.eqb (entries_ref (entries prevProps))
                      (entries_ref (entries (props c))))
  then checkFocus c
  else inr [].

(** [handleCopy()] *)
Definition handleCopy : list Call := [Copy].

(** [handleKeyDown(event)] *)
Definition handleKeyDown (event : KeyEvent) (c : Log) : list Call :=
  if keyCode event =? 27 then PreventDefault :: toggle c
  else if (keyCode event =? 65) && (ctrlKey event || metaKey event)
  then PreventDefault :: handleCopy
  else [].

(** The component after the host has handed [l] back as its layout prop. *)
Definition withLayout (l : Layout) (c : Log) : Log :=
  mkLog (mkProps (entries (props c)) l) (originalHeight c) (currentHeight c).

End Log.

(** ** Platform modeler modules (bpmn/modeler/BpmnModeler.js) *)

Module BpmnModeler.

(** A module descriptor handed to the modeler: an object, with its identity
    and the names of its own properties. *)
Record ModuleDef := mkModuleDef {
  module_ref : nat;
  ownKeys : list string
}.

(** [has(target, key)] of min-dash: an own-property test. *)
Definition has (m : ModuleDef) (key : string) : bool :=
  existsb (String.eqb key) (ownKeys m).

(** [excludeOldModules(modules)] *)
Definition excludeOldModules (modules : list ModuleDef) : list ModuleDef :=
  filter (fun m => negb (has m "propertiesPanel")
                   && negb (has m "propertiesProvider"))
         modules.

(** [PlatformBpmnModeler.prototype._modules], from the modules of the base
    modeler and the imported extension modules. *)
Definition _modules (defaultModules extensionModules : list ModuleDef)
    : list ModuleDef :=
  excludeOldModules defaultModules ++ extensionModules.

End BpmnModeler.

(** ** Engine profile status-bar button (EngineProfile.js) *)

Module EngineProfileView.

Import EngineProfile.

(** [${ v }] in a template literal. *)
Definition template (v : option string) : string :=
  match v with
  | Some s => s
  | None => "undefined"
  end.

(** What the overlay shows: the selection for forms, a description of the
    platform otherwise. *)
Inductive OverlayContent :=
| SelectionOverlay
| DescriptionOverlay.

(** The button put into the status bar; a [label] that is [undefined]
    renders as no text. *)
Record View := mkView {
  overlay : option OverlayContent;
  label : option string;
  title : string;
  arrow : bool;
  active : bool
}.

(** [EngineProfileOverlay]'s choice of content by [type]. *)
Definition overlayContent (type : string) : OverlayContent :=
  if String.eqb type "form" then SelectionOverlay else DescriptionOverlay.

(** [EngineProfile(props)]; [setEngineProfile] tells whether the prop is
    given, [open] is the hook state. [None] is the [null] the component
    returns to render nothing. *)
Definition render (engineProfile : option EngineProfile)
    (setEngineProfile : bool) (type : string) (open : bool) : option View :=
  if match engineProfile with Some _ => false | None => true end
     && negb setEngineProfile
  then None
  else
    let label :=
      match engineProfile with
      | Some p =>
          if setEngineProfile
          then Some (template (executionPlatform p) ++ " "
                     ++ template (executionPlatformVersion p))%string
          else executionPlatform p
      | None => Some "No platform selected"
      end in
    Some (mkView (if open then Some (overlayContent type) else None)
                 label
                 (if setEngineProfile then "Set engine profile"
                  else "Display engine profile information")
                 setEngineProfile
                 open).

(** The [checked] attribute of the radio input of the option [candidate]
    in [EngineProfileSelection]. *)
Definition checked (s : Selection) (candidate : EngineProfile) : bool :=
  engineProfilesEqual (selectedEngineProfile s) (Some candidate).

(** [render()] of the form editor: the loader is hidden unless an import
    is in flight, and the status bar button is that of a form, with the
    cached profile and the component's [setEngineProfile]. *)
Definition renderFormEditor {Form : Type} (c : FormEditor.FormEditor Form)
    (open : bool) : bool * option View :=
  (negb (FormEditor.importing (FormEditor.state c)),
   render (FormEditor.engineProfile (FormEditor.cached c)) true "form" open).

End EngineProfileView.

(** ** Form editor wrapper: construction and host callbacks *)

Module FormEditorLife.

Import FormEditor.

Section Component.

Context {Form json : Type} {engine : FormEngine Form json}.

(** [constructor(props)]: the state starts with [importing: false] and
    [_isMounted] is not set yet; the cached state is the one the cache
    holds for the tab. *)
Definition construct (props : Props) (cached : Cached Form) : FormEditor Form :=
  mkFormEditor props (mkState false None) false cached.

(** The [onImport] calls of a trace, with their arguments. *)
Fixpoint onImportCalls (calls : list (Call json))
    : list (option Err * option (list string)) :=
  match calls with
  | [] => []
  | OnImport error warnings :: r => (error, warnings) :: onImportCalls r
  | _ :: r => onImportCalls r
  end.

(** *** The import around its [await]

    [importSchema] suspends at [await form.importSchema(schemaJSON)]; what
    follows the [await] runs later, on the component as it is then. When
    [JSON.parse] throws the [await] is never reached and the method runs to
    its end at once. *)

(** Where [importSchema] stands when it returns to the event loop. *)
Inductive Begun :=
| Finished (c : FormEditor Form) (calls : list (Call json))
| Suspended (c : FormEditor Form) (calls : list (Call json))
            (settled : Settled).

(** [importSchema] up to the [await]: the state is set, the xml prop is
    read and parsed, and the engine is called. *)
Definition importSchema_begin (c : FormEditor Form) : Begun :=
  let c := setState_importing true c in
  let schema := xml (props c) in
  let form := form (cached c) in
  match JSON_parse schema with
  | inl err =>
      let '(c', calls) := settleImport (Some err) (err_warnings err) c in
      Finished c' (Invoke_importSchema :: calls)
  | inr schemaJSON =>
      let '(form', settled) := form_importSchema form schemaJSON in
      Suspended (withForm form' c)
                [Invoke_importSchema; Form_importSchema schemaJSON] settled
  end.

(** [importSchema] after the [await], on the component [c] as it is when
    the promise has settled: [_isMounted] and, in [handleImport], the props
    are read again. *)
Definition importSchema_resume (settled : Settled) (c : FormEditor Form)
    : FormEditor Form * list (Call json) :=
  let '(error, warnings) :=
    match settled with
    | Resolved error warnings => (error, warnings)
    | Rejected err => (Some err, err_warnings err)
    end in
  settleImport error warnings c.

(** Props updates delivered to the component one after the other. *)
Fixpoint deliverProps (updates : list Props) (c : FormEditor Form)
    : FormEditor Form * list (Call json) :=
  match updates with
  | [] => (c, [])
  | newProps :: r =>
      let '(c, calls) := updateProps newProps c in
      let '(c, later) := deliverProps r c in
      (c, calls ++ later)
  end.

(** An import during which the props updates [updates] arrive while it is
    suspended. An import that never suspends leaves no room for them. *)
Definition importSchema_during (updates : list Props) (c : FormEditor Form)
    : FormEditor Form * list (Call json) :=
  match importSchema_begin c with
  | Finished c calls => (c, calls)
  | Suspended c calls settled =>
      let '(c, during) := deliverProps updates c in
      let '(c, after) := importSchema_resume settled c in
      (c, calls ++ during ++ after)
  end.

(** The cached schema in the words of the specification: an import of the
    xml prop of [c] that succeeds, whatever props updates arrive while it
    is in flight, caches the imported schema as [lastSchema]. *)
Definition caches_imported_schema (updates : list Props)
    (c : FormEditor Form) : Prop :=
  forall schemaJSON form' warnings,
    JSON_parse (xml (props c)) = inr schemaJSON ->
    form_importSchema (form (cached c)) schemaJSON
    = (form', Resolved None warnings) ->
    lastSchema (cached (fst (importSchema_during updates c)))
    = Some (xml (props c)).

(** What the [try] / [catch] of [importSchema] ends with on [c]: the
    error, if any, and the form the engine leaves behind. *)
Definition importResult (c : FormEditor Form) : option Err * Form :=
  match JSON_parse (xml (props c)) with
  | inl err => (Some err, form (cached c))
  | inr schemaJSON =>
      match form_importSchema (form (cached c)) schemaJSON with
      | (form', Resolved error _) => (error, form')
      | (form', Rejected err) => (Some err, form')
      end
  end.

End Component.

End FormEditorLife.

(** ** Multi-sheet tab container: actions, updates and the sheet switch *)

Module MultiSheetTabMore.

Import MultiSheetTab.

(** The other methods of the mounted editor the tab calls; [O] are the
    options of an action and [R] what an action results in. *)
Class EditorActions (E O R : Type) := {
  options_fileType : O -> string;                     (* options.fileType *)
  editor_exportAs : E -> string -> E * (Err + R);
  editor_triggerAction : E -> string -> option O -> E * (Err + R)
}.

(** What [triggerAction] resolves with. *)
Inductive Result (R : Type) :=
| Saved (xml : string)
| Other (r : R).

Arguments Saved {R} xml.
Arguments Other {R} r.

(** Calls of the tab beyond those of [MultiSheetTab.Call]. *)
Inductive Call :=
| Base (c : MultiSheetTab.Call)
| Editor_exportAs (fileType : string)
| Editor_triggerAction (action : string)
| OnChanged (dirty : bool).          (* props.onChanged({ ...newState, dirty }) *)

(** The button [SheetSwitch] renders: whether it is highlighted, its text
    (the default name of the fallback provider) and the sheet [onSelect] is
    called with on a click ([None]: [undefined]). *)
Record SwitchButton := mkSwitchButton {
  highlighted : bool;
  text : string;
  target : option SheetObj
}.

(** [SheetSwitch(props)]: [None] is the [null] it returns for fewer than
    two sheets; reading [defaultName] of a fallback provider that does not
    exist throws. *)
Definition SheetSwitch (sheets : list SheetObj) (activeSheet : SheetObj)
    : Err + option SwitchButton :=
  if (List.length sheets <? 2)%nat then inr None
  else
    let fallbackProvider :=
      find isFallback (map (fun sheet => provider (fields sheet)) sheets) in
    match fallbackProvider with
    | None => inl typeError
    | Some fallback =>
        inr (Some (mkSwitchButton
                     (same_provider (provider (fields activeSheet)) fallback)
                     (defaultName fallback)
                     (find (fun sheet => negb (same_sheet sheet activeSheet))
                           sheets)))
    end.

(** Ascending order on the properties of sheets, as [le_order] on sheet
    objects. *)
Definition le_order_fields (x y : Sheet) : Prop :=
  match order x, order y with
  | Some a, Some b => a <= b
  | _, _ => False
  end.

(** The calls of the tab other than the error dialog and [onError]. *)
Definition quietCall (c : MultiSheetTab.Call) : Prop :=
  match c with
  | OnError _ => False
  | OnAction (Show_dialog _) => False
  | _ => True
  end.

(** The sheets of provider [p]. *)
Definition ofProvider (p : Provider) (s : Sheet) : bool :=
  same_provider (provider s) p.

Section Component.

Context {E O R : Type} {editorClass : Editor E}
  {actions : EditorActions E O R}.

(** The reconciliation in the words of the specification: the cached
    result is exactly the prior sheets of the other providers, unaltered,
    plus the reported sheets with the provider of the active sheet and with
    their order, or [0] when they have none. *)
Definition reconciles_as_specified (newSheets : list SheetObj)
    (newActiveSheet : option SheetObj) (t : Tab E) (a : SheetObj) : Prop :=
  let prior := match sheets (cached t) with Some l => l | None => [] end in
  let p := provider (fields a) in
  let reported (s : Sheet) :=
    mkSheet (id s) (name s) (isDefault s) p (type s)
            (Some match order s with Some z => z | None => 0 end) in
  exists t' l,
    sheetsChanged newSheets newActiveSheet t = inr t'
    /\ sheets (cached t') = Some l
    /\ Permutation
         (map fields l)
         (map fields
              (filter (fun s => negb (same_provider (provider (fields s)) p))
                      prior)
          ++ map reported (map fields newSheets)).

(** The active sheet is one of the cached sheets (as an object). *)
Definition activeListed (t : Tab E) : Prop :=
  exists a l,
    activeSheet (cached t) = Some a /\ sheets (cached t) = Some l /\ In a l.

(** What [sheetsChanged(newSheets, _)] caches as sheets when [a] is the
    active sheet: the sheets kept and wired, spread and sorted. *)
Definition reconciled (newSheets : list SheetObj) (a : SheetObj) (t : Tab E)
    : list SheetObj :=
  let prior := match sheets (cached t) with Some l => l | None => [] end in
  let p := provider (fields a) in
  let kept :=
    filter (fun s => negb (same_provider (provider (fields s)) p)) prior
    ++ spreadMap (wire p) newSheets (nextRef t) in
  sort compareFn
       (spreadMap defaultOrder kept (nextRef t + List.length newSheets)%nat).

(** [handleContentUpdated(xml)] *)
Definition handleContentUpdated (xml : string) (t : Tab E)
    : Tab E * list Call :=
  let p := mkPatch None None (Some xml) in
  (setCached p t, [Base (SetCached p)]).

(** [componentDidUpdate(prevProps)] *)
Definition componentDidUpdate (prevProps : Props) (t : Tab E)
    : Tab E * list Call :=
  if isXMLChange (xml prevProps) (xml (props t)) then
    let p := mkPatch None None (Some (xml (props t))) in
    (setCached p t, [Base (SetCached p)])
  else (t, []).

(** A props update: the tab receives [newProps] and React calls
    [componentDidUpdate] with the props it had before. *)
Definition updateProps (newProps : Props) (t : Tab E) : Tab E * list Call :=
  componentDidUpdate (props t)
    (mkTab newProps (cached t) (editor t) (nextRef t)).

(** [handleChanged(newState = {})]; [dirty] is the truthiness of
    [newState.dirty], and the flag passed on is the one recorded. *)
Definition handleChanged (dirty : bool) (t : Tab E) : list Call :=
  [OnChanged (isDirty dirty t)].

(** [async triggerAction(action, options)]; [options] is [None] when not
    given, and reading [fileType] of it throws then. *)
Definition triggerAction (action : string) (options : option O) (t : Tab E)
    : Tab E * list Call * (Err + Result R) :=
  if String.eqb action "save" then
    let '(e, settled) := editor_getXML (editor t) in
    let t := withEditor e t in
    match settled with
    | inl err => (t, [Base Editor_getXML], inl err)
    | inr xml =>
        let p := mkPatch None None (Some xml) in
        (setCached p t, [Base Editor_getXML; Base (SetCached p)],
         inr (Saved xml))
    end
  else if String.eqb action "export-as" then
    match options with
    | None => (t, [], inl typeError)
    | Some options =>
        let fileType := options_fileType options in
        let '(e, settled) := editor_exportAs (editor t) fileType in
        (withEditor e t, [Editor_exportAs fileType],
         match settled with inl err => inl err | inr r => inr (Other r) end)
    end
  else
    let '(e, settled) := editor_triggerAction (editor t) action options in
    (withEditor e t, [Editor_triggerAction action],
     match settled with inl err => inl err | inr r => inr (Other r) end).

(** What [render] passes to the editor as [xml]: [lastXML || xml]. *)
Definition renderedXML (t : Tab E) : string :=
  or_string (lastXML (cached t)) (xml (props t)).

(** The sheets [render] works with: the cached ones, or the default ones. *)
Definition renderedSheets (t : Tab E) : list SheetObj :=
  match sheets (cached t) with
  | Some l => l
  | None => fst (getDefaultSheets t)
  end.

(** The active sheet [render] works with: the cached one, or [sheets[0]];
    [None] when there is neither, and reading its [provider] throws. *)
Definition renderedActiveSheet (t : Tab E) : option SheetObj :=
  match activeSheet (cached t) with
  | Some a => Some a
  | None => hd_error (renderedSheets t)
  end.

(** The sheet switch as [render] puts it out. *)
Definition renderedSwitch (t : Tab E) : Err + option SwitchButton :=
  match renderedActiveSheet t with
  | Some a => SheetSwitch (renderedSheets t) a
  | None => inl typeError
  end.

(** A click on the sheet switch: [onSelect] is [switchSheet]. Called with
    [undefined] it returns at once when no active sheet is cached either
    ([undefined === undefined]) and throws on reading [sheet.provider]
    otherwise. *)
Definition clickSwitch (button : SwitchButton) (t : Tab E)
    : Tab E * list MultiSheetTab.Call * Outcome :=
  match target button with
  | Some sheet => switchSheet sheet t
  | None =>
      match activeSheet (cached t) with
      | None => (t, [], Fulfilled)
      | Some _ => (t, [], Failed typeError)
      end
  end.

End Component.

End MultiSheetTabMore.

(** ** More of the test double *)

Module FixtureMore.

(** The fixture editor exports its document under the given file type and
    knows no other action. *)
#[export] Instance actions : MultiSheetTabMore.EditorActions string string string := {|
  MultiSheetTabMore.options_fileType := fun options => options;
  MultiSheetTabMore.editor_exportAs := fun doc fileType =>
    (doc, inr (doc ++ "." ++ fileType)%string);
  MultiSheetTabMore.editor_triggerAction := fun doc action _ =>
    (doc, inl (mkErr action None))
|}.

(** The fixture tab with the form editor mounted as its editor. *)
Definition formTab : MultiSheetTab.Tab (FormEditor.FormEditor Fixture.Form) :=
  @MultiSheetTab.construct _
    (MultiSheetTab.mkTab
       (MultiSheetTab.mkProps "plain.form"
          [Fixture.formProvider; Fixture.jsonProvider])
       (MultiSheetTab.mkCached None None None)
       (Fixture.mounted "plain.form")
       2).

(** The same tab after the form editor has imported its document and the
    user has made one edit. *)
Definition editedFormTab
    : MultiSheetTab.Tab (FormEditor.FormEditor Fixture.Form) :=
  MultiSheetTab.withEditor
    (FormEditor.engineActions [Fixture.edit]
       (fst (@FormEditor.checkImport _ _ Fixture.engine None
               (Fixture.mounted "plain.form"))))
    formTab.

(** Sheets as an editor reports them, not wired to the provider of the
    active sheet: two pages, the second one listed first and the first one
    without an order. *)
Definition reportedUnwired : list MultiSheetTab.SheetObj :=
  [ MultiSheetTab.mkObj 60
      (MultiSheetTab.mkSheet "page-2" "Page 2" false Fixture.jsonProvider
                             "page" (Some 2));
    MultiSheetTab.mkObj 61
      (MultiSheetTab.mkSheet "page-1" "Page 1" false Fixture.jsonProvider
                             "page" None) ].

(** Props with another document. *)
Definition cloudProps : FormEditor.Props := FormEditor.mkProps "cloud.form" true.

End FixtureMore.
(** * Properties *)

Lemma strict_eq_ostring_true (a b : option string) :
  strict_eq_ostring a b = true <-> a = b.
Proof.
  destruct a as [x|], b as [y|]; simpl; try (split; congruence).
  rewrite String.eqb_eq. split; congruence.
Qed.

Lemma strict_eq_ostring_false (a b : option string) :
  strict_eq_ostring a b = false <-> a <> b.
Proof.
  rewrite <- strict_eq_ostring_true.
  destruct (strict_eq_ostring a b); split; congruence.
Qed.

Lemma strict_eq_ostring_sym (a b : option string) :
  strict_eq_ostring a b = strict_eq_ostring b a.
Proof.
  destruct a, b; simpl; auto using String.eqb_sym.
Qed.

(** ** Engine profile selector *)

Module EngineProfileFacts.

Import EngineProfile.

(** C9. Equality of engine profiles is structural:
    [engineProfilesEqual(a, b)] holds exactly when the execution platforms
    and the execution platform versions of [a] and [b] are equal; the
    test is symmetric (on any two arguments) and reflexive on profiles. *)
Theorem engineProfilesEqual_structural :
  (forall a b : EngineProfile,
      engineProfilesEqual (Some a) (Some b) = true <->
      executionPlatform a = executionPlatform b /\
      executionPlatformVersion a = executionPlatformVersion b)
  /\ (forall a b : option EngineProfile,
         engineProfilesEqual a b = engineProfilesEqual b a)
  /\ (forall a : EngineProfile, engineProfilesEqual (Some a) (Some a) = true).
Proof.
  split; [|split].
  - intros a b. simpl.
    now rewrite andb_true_iff, !strict_eq_ostring_true.
  - intros [a|] [b|]; simpl; trivial.
    now rewrite (strict_eq_ostring_sym (executionPlatform a)),
                (strict_eq_ostring_sym (executionPlatformVersion a)).
  - intros a. simpl.
    apply andb_true_iff; split; now apply strict_eq_ostring_true.
Qed.

(** A nil argument never compares equal, not even to itself. *)
Lemma engineProfilesEqual_nil (a : option EngineProfile) :
  engineProfilesEqual None a = false /\ engineProfilesEqual a None = false.
Proof. destruct a; split; reflexivity. Qed.

Section OnTheFormEditor.

Context {Form json : Type} {engine : FormEditor.FormEngine Form json}.

(** C8. Confirming (Apply) with no staged selection makes no call on the
    props: [props.setEngineProfile] is not called, so the engine profile
    cached by the form editor is unchanged, and [onClose] is not called,
    so the overlay stays open; the error flag is set and the message
    "Select one option." is rendered. *)
Theorem apply_without_selection
    (engineProfile : option EngineProfile) (s : Selection)
    (c : FormEditor.FormEditor Form) :
  selectedEngineProfile s = None ->
  let s' := fst (setEngineProfile engineProfile s) in
  let calls := snd (setEngineProfile engineProfile s) in
  calls = []
  /\ FormEditor.dispatchPropCalls calls c = c
  /\ selectedEngineProfile s' = None
  /\ error s' = true
  /\ renderedError s' = Some "Select one option.".
Proof.
  intros Hnone. unfold setEngineProfile. rewrite Hnone. simpl.
  repeat split.
Qed.

End OnTheFormEditor.

Lemma apply_without_selection_witness :
  selectedEngineProfile (initial None) = None
  /\ snd (setEngineProfile None (initial None)) = []
  /\ renderedError (fst (setEngineProfile None (initial None)))
     = Some "Select one option.".
Proof.
  split; [reflexivity|].
  destruct (@apply_without_selection _ _ Fixture.engine None (initial None)
              (Fixture.mounted "plain.form") eq_refl)
    as (Hcalls & _ & _ & _ & Hmsg).
  split; [exact Hcalls | exact Hmsg].
Defined.

(** With a staged selection that differs from the current profile, Apply
    hands the selection to the form editor and closes the overlay. *)
Lemma apply_with_selection
    (engineProfile : option EngineProfile) (s : Selection)
    (p : EngineProfile) :
  selectedEngineProfile s = Some p ->
  engineProfilesEqual (Some p) engineProfile = false ->
  setEngineProfile engineProfile s = (s, [SetEngineProfile p; OnClose]).
Proof.
  intros Hsel Hne. unfold setEngineProfile. now rewrite Hsel, Hne.
Qed.

End EngineProfileFacts.

(** ** Form editor wrapper *)

Module FormEditorFacts.

Import EngineProfile FormEditor.

Section WithEngine.

Context {Form json : Type} {engine : FormEngine Form json}.

Implicit Types (c : FormEditor Form) (error : option Err)
  (warnings : option (list string)).

(** *** Import trigger *)

Lemma isImportNeeded_iff (prevProps : option Props) c :
  isImportNeeded prevProps c = true <->
  importing (state c) = false
  /\ option_map xml prevProps <> Some (xml (props c))
  /\ lastSchema (cached c) <> Some (xml (props c)).
Proof.
  unfold isImportNeeded.
  destruct (importing (state c)); [intuition discriminate|].
  destruct (strict_eq_ostring (Some (xml (props c))) (option_map xml prevProps))
    eqn:Hprev.
  - apply strict_eq_ostring_true in Hprev. intuition congruence.
  - apply strict_eq_ostring_false in Hprev.
    rewrite negb_true_iff, strict_eq_ostring_false. intuition congruence.
Qed.

Lemma importSchema_invoked c :
  invokesImportSchema (snd (importSchema c)) = true.
Proof.
  unfold importSchema.
  destruct (JSON_parse _) as [err|j].
  - destruct (settleImport _ _ _). reflexivity.
  - destruct (form_importSchema _ _) as [f' [e w|err]];
      destruct (settleImport _ _ _); reflexivity.
Qed.

Lemma checkImport_invoked (prevProps : option Props) c :
  invokesImportSchema (snd (checkImport prevProps c)) = true <->
  isImportNeeded prevProps c = true.
Proof.
  unfold checkImport. destruct (isImportNeeded prevProps c); simpl.
  - split; trivial. intros _. apply importSchema_invoked.
  - split; discriminate.
Qed.

(** C3 (amended). On a props update [importSchema] is invoked if and only
    if no import is in flight, the supplied schema differs from the schema
    of the previous props, and it differs from the cached [lastSchema]. *)
Theorem import_trigger (newProps : Props) c :
  invokesImportSchema (snd (updateProps newProps c)) = true <->
  importing (state c) = false
  /\ xml (props c) <> xml newProps
  /\ lastSchema (cached c) <> Some (xml newProps).
Proof.
  unfold updateProps, componentDidUpdate.
  rewrite checkImport_invoked, isImportNeeded_iff. simpl.
  intuition congruence.
Qed.

(** On mount ([checkImport()] without previous props) the import depends on
    the cache alone. *)
Lemma import_trigger_on_mount c :
  invokesImportSchema (snd (checkImport None c)) = true <->
  importing (state c) = false
  /\ lastSchema (cached c) <> Some (xml (props c)).
Proof.
  rewrite checkImport_invoked, isImportNeeded_iff. simpl.
  intuition discriminate.
Qed.

(** *** Dirty tracking *)

Lemma isDirty_true_iff c :
  isDirty c = true <->
  commandStack_stackIdx (form (cached c)) <> stackIdx (cached c).
Proof.
  unfold isDirty. now rewrite negb_true_iff, Z.eqb_neq.
Qed.

Lemma isDirty_false_iff c :
  isDirty c = false <->
  commandStack_stackIdx (form (cached c)) = stackIdx (cached c).
Proof.
  unfold isDirty. now rewrite negb_false_iff, Z.eqb_eq.
Qed.

(** C4. The dirty flag of the form editor is determined by the command
    stack position and the cached baseline position alone: it is set exactly
    when they differ, whatever the documents held by the editor (cached
    schema, xml prop, form contents); and this is the flag [handleChanged]
    reports to the host. *)
Theorem dirty_by_stack_position :
  (forall c,
      isDirty c = true <->
      commandStack_stackIdx (form (cached c)) <> stackIdx (cached c))
  /\ (forall c1 c2,
         commandStack_stackIdx (form (cached c1))
         = commandStack_stackIdx (form (cached c2)) ->
         stackIdx (cached c1) = stackIdx (cached c2) ->
         isDirty c1 = isDirty c2)
  /\ (forall isInputActive c,
         onChanged_isFunction (props c) = true ->
         exists s, snd (handleChanged isInputActive c) = [OnChanged s]
                   /\ dirty s = isDirty c).
Proof.
  split; [exact isDirty_true_iff | split].
  - intros c1 c2 Hidx Hbase. unfold isDirty. now rewrite Hidx, Hbase.
  - intros i c Hfun. unfold handleChanged. simpl. rewrite Hfun.
    eexists. split; reflexivity.
Qed.

(** The dirty flag is untouched by [handleChanged]. *)
Lemma handleChanged_keeps_dirty isInputActive c :
  isDirty (fst (handleChanged isInputActive c)) = isDirty c.
Proof. reflexivity. Qed.

(** *** Outcome of an import *)

Lemma handleImport_failure (err : Err) warnings c :
  let c' := fst (handleImport (Some err) warnings c) in
  lastSchema (cached c') = None
  /\ engineProfile (cached c') = None
  /\ stackIdx (cached c') = stackIdx (cached c)
  /\ form (cached c') = form (cached c)
  /\ importing (state c') = false
  /\ props c' = props c
  /\ snd (handleImport (Some err) warnings c) = [OnImport (Some err) None].
Proof. simpl. repeat split. Qed.

Lemma handleImport_success_cached warnings c :
  let c' := fst (handleImport None warnings c) in
  let schema := form_getSchema (form (cached c)) in
  lastSchema (cached c') = Some (xml (props c))
  /\ stackIdx (cached c') = commandStack_stackIdx (form (cached c))
  /\ engineProfile (cached c')
     = match get_executionPlatform schema with
       | Some p => Some (mkProfile (Some p) (get_executionPlatformVersion schema))
       | None => None
       end
  /\ form (cached c') = form (cached c)
  /\ importing (state c') = false
  /\ props c' = props c.
Proof.
  simpl. repeat split.
  now destruct (get_executionPlatform _).
Qed.

(** An update that leaves the schema prop as it was never imports: the
    re-render that follows [handleImport] does not start a new import. *)
Lemma same_schema_no_import (newProps : Props) c :
  xml newProps = xml (props c) ->
  snd (updateProps newProps c) = [].
Proof.
  intros Hsame. unfold updateProps, componentDidUpdate, checkImport.
  destruct (isImportNeeded _ _) eqn:Hneed; [|reflexivity].
  apply isImportNeeded_iff in Hneed. simpl in Hneed.
  destruct Hneed as (_ & Hprev & _). congruence.
Qed.

(** After a failed import, a props update with a different schema imports
    again. *)
Lemma failed_import_retried_on_new_schema (err : Err) warnings
    (newProps : Props) c :
  xml newProps <> xml (props c) ->
  invokesImportSchema
    (snd (updateProps newProps (fst (handleImport (Some err) warnings c))))
  = true.
Proof.
  intros Hnew. unfold updateProps, componentDidUpdate.
  apply checkImport_invoked, isImportNeeded_iff.
  destruct (handleImport_failure err warnings c)
    as (Hlast & _ & _ & _ & Himp & Hprops & _).
  cbn [props state cached option_map] in *.
  rewrite Hlast, Himp, Hprops. repeat split; congruence.
Qed.

(** The warnings of an import never reach [onImport]: whatever the import
    ends with, the callback is called without its second argument. *)
Lemma importSchema_passes_no_warnings c :
  Forall (fun call => match call with
                      | OnImport _ warnings => warnings = None
                      | _ => True
                      end)
         (snd (importSchema c)).
Proof.
  assert (Hsettle : forall error warnings c0,
             Forall (fun call => match call with
                                 | OnImport _ w => w = None
                                 | _ => True
                                 end)
                    (snd (settleImport error warnings c0))).
  { intros e w c0. unfold settleImport.
    destruct (_isMounted c0); simpl; repeat constructor. }
  unfold importSchema.
  destruct (JSON_parse _) as [err|j].
  - specialize (Hsettle (Some err) (err_warnings err)
                        (setState_importing true c)).
    destruct (settleImport _ _ _). simpl in *. now constructor.
  - destruct (form_importSchema _ _) as [f' settled].
    destruct settled as [e w|err].
    + specialize (Hsettle e w (withForm f' (setState_importing true c))).
      destruct (settleImport _ _ _). simpl in *. now repeat constructor.
    + specialize (Hsettle (Some err) (err_warnings err)
                          (withForm f' (setState_importing true c))).
      destruct (settleImport _ _ _). simpl in *. now repeat constructor.
Qed.

(** The result of an import that settles after the component was
    unmounted is dropped. *)
Lemma settleImport_unmounted error warnings c :
  _isMounted c = false -> settleImport error warnings c = (c, []).
Proof. intros Hm. unfold settleImport. now rewrite Hm. Qed.

(** A failed import of a mounted editor: the cache is reset and the error
    is handed to [onImport]. *)
Lemma importSchema_failure c (err : Err) :
  _isMounted c = true ->
  (JSON_parse (xml (props c)) = inl err
   \/ exists j f' settled,
        JSON_parse (xml (props c)) = inr j
        /\ form_importSchema (form (cached c)) j = (f', settled)
        /\ (settled = Rejected err
            \/ exists w, settled = Resolved (Some err) w)) ->
  let c' := fst (importSchema c) in
  lastSchema (cached c') = None
  /\ engineProfile (cached c') = None
  /\ importing (state c') = false
  /\ exists before,
       snd (importSchema c) = before ++ [OnImport (Some err) None]
       /\ Forall (fun call => match call with
                              | OnImport _ _ => False
                              | _ => True
                              end) before.
Proof.
  intros Hm Hfail. cbv zeta. unfold importSchema.
  cbn [setState_importing props cached].
  destruct Hfail as [Hparse | (j & f' & settled & Hparse & Himp & Hset)].
  - rewrite Hparse. unfold settleImport. simpl. rewrite Hm. simpl.
    repeat split. exists [Invoke_importSchema]. split; [reflexivity|].
    repeat constructor.
  - rewrite Hparse. simpl. rewrite Himp.
    destruct Hset as [-> | (w & ->)];
      unfold settleImport; simpl; rewrite Hm; simpl;
      (repeat split;
       exists [Invoke_importSchema; Form_importSchema j];
       split; [reflexivity | repeat constructor]).
Qed.

(** A successful import of a mounted editor ends in [handleImport] without
    an error, run on the form the engine has imported into. *)
Lemma importSchema_success c (j : json) (f' : Form) warnings :
  _isMounted c = true ->
  JSON_parse (xml (props c)) = inr j ->
  form_importSchema (form (cached c)) j = (f', Resolved None warnings) ->
  importSchema c
  = (fst (handleImport None warnings
            (withForm f' (setState_importing true c))),
     [Invoke_importSchema; Form_importSchema j; OnImport None None]).
Proof.
  intros Hm Hparse Himp. unfold importSchema.
  cbn [setState_importing props cached].
  rewrite Hparse. simpl. rewrite Himp.
  unfold settleImport. simpl. rewrite Hm. reflexivity.
Qed.

(** *** The import around its [await] *)

Lemma last_cons {A} (l : list A) (a d : A) : last (a :: l) d = last l a.
Proof.
  revert a d. induction l as [|b l IH]; intros a d; [reflexivity|].
  change (last (a :: b :: l) d) with (last (b :: l) d).
  now rewrite !IH.
Qed.

(** While an import is in flight a props update replaces the props and
    does nothing else: [isImportNeeded] answers [false]. *)
Lemma updateProps_while_importing (newProps : Props) c :
  importing (state c) = true ->
  updateProps newProps c
  = (mkFormEditor newProps (state c) (_isMounted c) (cached c), []).
Proof.
  intros Himp. unfold updateProps, componentDidUpdate, checkImport,
    isImportNeeded.
  cbn [state]. now rewrite Himp.
Qed.

Lemma deliverProps_while_importing (updates : list Props) c :
  importing (state c) = true ->
  FormEditorLife.deliverProps updates c
  = (mkFormEditor (last updates (props c)) (state c) (_isMounted c)
                  (cached c), []).
Proof.
  revert c. induction updates as [|newProps r IH]; intros c Himp.
  - now destruct c.
  - cbn [FormEditorLife.deliverProps].
    rewrite (updateProps_while_importing newProps c Himp).
    rewrite IH by exact Himp. now rewrite last_cons.
Qed.

(** An import that reaches its [await]: the continuation runs on the props
    delivered last, with the state, the mount flag and the cache as the
    first part left them. *)
Lemma importSchema_during_suspended (updates : list Props) c (j : json)
    (f' : Form) (settled : Settled) :
  JSON_parse (xml (props c)) = inr j ->
  form_importSchema (form (cached c)) j = (f', settled) ->
  FormEditorLife.importSchema_during updates c
  = (fst (FormEditorLife.importSchema_resume settled
            (mkFormEditor (last updates (props c))
                          (mkState true (reported (state c)))
                          (_isMounted c)
                          (mkCached f' (lastSchema (cached c))
                                    (stackIdx (cached c))
                                    (engineProfile (cached c))))),
     [Invoke_importSchema; Form_importSchema j]
     ++ snd (FormEditorLife.importSchema_resume settled
               (mkFormEditor (last updates (props c))
                             (mkState true (reported (state c)))
                             (_isMounted c)
                             (mkCached f' (lastSchema (cached c))
                                       (stackIdx (cached c))
                                       (engineProfile (cached c)))))).
Proof.
  intros Hparse Himp.
  unfold FormEditorLife.importSchema_during,
    FormEditorLife.importSchema_begin.
  cbn [setState_importing props cached]. rewrite Hparse, Himp.
  rewrite deliverProps_while_importing by reflexivity.
  cbn [withForm setState_importing props state _isMounted cached form
       lastSchema stackIdx engineProfile importing].
  now destruct (FormEditorLife.importSchema_resume _ _).
Qed.

(** An import that does not reach its [await] has ended before any update
    can arrive. *)
Lemma importSchema_during_unparsed (updates : list Props) c (err : Err) :
  JSON_parse (xml (props c)) = inl err ->
  FormEditorLife.importSchema_during updates c = importSchema c.
Proof.
  intros Hparse.
  unfold FormEditorLife.importSchema_during,
    FormEditorLife.importSchema_begin, importSchema.
  cbn [setState_importing props cached]. rewrite Hparse.
  now destruct (settleImport _ _ _).
Qed.

(** With no update in between, the import is [importSchema] run in one
    piece. *)
Lemma importSchema_during_nil c :
  FormEditorLife.importSchema_during [] c = importSchema c.
Proof.
  unfold FormEditorLife.importSchema_during,
    FormEditorLife.importSchema_begin, importSchema.
  cbn [setState_importing props cached].
  destruct (JSON_parse _) as [err|j].
  - now destruct (settleImport _ _ _).
  - destruct (form_importSchema _ _) as [f' settled].
    cbn [FormEditorLife.deliverProps].
    unfold FormEditorLife.importSchema_resume.
    destruct settled as [error warnings|err];
      now destruct (settleImport _ _ _).
Qed.

(** C6 (amended). When an import succeeds on a mounted editor (the schema
    prop parses and the engine resolves without an error), whatever props
    updates arrive while it is in flight: the cached [lastSchema] becomes
    the schema prop held when the result is handled, which is the imported
    schema when no update has changed the prop; the cached baseline
    [stackIdx] becomes the position of the command stack of the form
    imported into; the engine profile
    [{ executionPlatform, executionPlatformVersion }] of that form's schema
    is cached when the schema has a defined [executionPlatform], and [null]
    is cached otherwise. *)
Theorem import_success_caches (updates : list Props) c (j : json)
    (f' : Form) warnings :
  _isMounted c = true ->
  JSON_parse (xml (props c)) = inr j ->
  form_importSchema (form (cached c)) j = (f', Resolved None warnings) ->
  let c' := fst (FormEditorLife.importSchema_during updates c) in
  let schema := form_getSchema f' in
  lastSchema (cached c') = Some (xml (last updates (props c)))
  /\ (Forall (fun newProps => xml newProps = xml (props c)) updates ->
      lastSchema (cached c') = Some (xml (props c)))
  /\ form (cached c') = f'
  /\ stackIdx (cached c') = commandStack_stackIdx f'
  /\ (forall p, get_executionPlatform schema = Some p ->
                engineProfile (cached c')
                = Some (mkProfile (Some p) (get_executionPlatformVersion schema)))
  /\ (get_executionPlatform schema = None -> engineProfile (cached c') = None)
  /\ (engineProfile (cached c') <> None <-> get_executionPlatform schema <> None)
  /\ props c' = last updates (props c)
  /\ importing (state c') = false
  /\ snd (FormEditorLife.importSchema_during updates c)
     = [Invoke_importSchema; Form_importSchema j; OnImport None None]
  /\ importSchema c = FormEditorLife.importSchema_during [] c.
Proof.
  intros Hm Hparse Himp.
  rewrite (importSchema_during_suspended updates c j f' _ Hparse Himp).
  unfold FormEditorLife.importSchema_resume, settleImport.
  cbn [_isMounted]. rewrite Hm.
  set (c1 := mkFormEditor _ _ _ _).
  destruct (handleImport_success_cached warnings c1)
    as (Hlast & Hidx & Hprofile & Hform & Himporting & Hprops).
  cbv zeta. cbn [fst snd]. rewrite Hlast, Hidx, Hprofile, Hform, Hprops.
  subst c1. cbn [props cached form].
  split; [reflexivity|].
  split.
  { intros Hsame. f_equal.
    destruct updates as [|newProps r] using rev_ind; [reflexivity|].
    rewrite last_last. apply Forall_app in Hsame.
    destruct Hsame as (_ & Hsame). now inversion Hsame. }
  split; [reflexivity|].
  split; [reflexivity|].
  split; [intros p Hp; now rewrite Hp|].
  split; [intros Hp; now rewrite Hp|].
  split; [destruct (get_executionPlatform _); split; congruence|].
  split; [reflexivity|].
  split; [exact Himporting|].
  split; [reflexivity | symmetry; apply importSchema_during_nil].
Qed.

Lemma engineActions_cached (acts : list (Form -> Form)) c :
  stackIdx (cached (engineActions acts c)) = stackIdx (cached c)
  /\ lastSchema (cached (engineActions acts c)) = lastSchema (cached c).
Proof. split; reflexivity. Qed.

(** C7. Right after a successful import [isDirty()] returns [false]; after
    any later activity of the engine it returns [true] exactly when the
    command stack position has moved away from the position it had at the
    import. *)
Theorem clean_after_import warnings c :
  let c' := fst (handleImport None warnings c) in
  isDirty c' = false
  /\ (forall acts : list (Form -> Form),
         isDirty (engineActions acts c') = true <->
         commandStack_stackIdx (form (cached (engineActions acts c')))
         <> commandStack_stackIdx (form (cached c))).
Proof.
  destruct (handleImport_success_cached warnings c)
    as (_ & Hidx & _ & Hform & _).
  cbv zeta. split.
  - apply isDirty_false_iff. now rewrite Hidx, Hform.
  - intros acts. rewrite isDirty_true_iff.
    destruct (engineActions_cached acts (fst (handleImport None warnings c)))
      as (Hbase & _).
    now rewrite Hbase, Hidx.
Qed.

(** *** Serialization *)

Lemma or_string_cases (a : option string) (b : string) :
  (forall s, a = Some s -> s <> "" -> or_string a b = s)
  /\ (a = None \/ a = Some "" -> or_string a b = b).
Proof.
  unfold or_string, truthy_string. split.
  - intros s -> Hs. apply String.eqb_neq in Hs. now rewrite Hs.
  - intros [-> | ->]; reflexivity.
Qed.

(** C10. [getXML()] of an editor that is not dirty returns the cached
    [lastSchema], and the xml prop when none is cached (the cache holds
    [null], or the empty string, which is falsy as well); it does not
    serialize the form and leaves the component as it is. [getXML()] of a
    dirty editor serializes the form, returns the result and caches it as
    [lastSchema] with the current stack position as baseline, so that
    [isDirty()] is [false] afterwards. *)
Theorem getXML_cached_or_serialized c :
  (isDirty c = false ->
   (forall s, lastSchema (cached c) = Some s -> s <> "" ->
              fst (fst (getXML c)) = s)
   /\ (lastSchema (cached c) = None \/ lastSchema (cached c) = Some "" ->
       fst (fst (getXML c)) = xml (props c))
   /\ snd (fst (getXML c)) = c
   /\ serializesForm (snd (getXML c)) = false)
  /\ (isDirty c = true ->
      let schema := JSON_stringify (form_saveSchema (form (cached c))) in
      let c' := snd (fst (getXML c)) in
      fst (fst (getXML c)) = schema
      /\ snd (getXML c) = [Form_saveSchema]
      /\ lastSchema (cached c') = Some schema
      /\ stackIdx (cached c') = commandStack_stackIdx (form (cached c))
      /\ form (cached c') = form (cached c)
      /\ engineProfile (cached c') = engineProfile (cached c)
      /\ isDirty c' = false).
Proof.
  split; intros Hd; unfold getXML; rewrite Hd; simpl.
  - destruct (or_string_cases (lastSchema (cached c)) (xml (props c)))
      as (Hsome & Hnone).
    repeat split; trivial.
  - repeat split. apply isDirty_false_iff. reflexivity.
Qed.

End WithEngine.

(** *** Runs on the test double *)

#[local] Existing Instance Fixture.engine.
#[local] Existing Instance Fixture.editor.

Example mount_imports_plain :
  let '(c, calls) := checkImport None (Fixture.mounted "plain.form") in
  calls = [Invoke_importSchema; Form_importSchema Fixture.plainJson;
           OnImport None None]
  /\ lastSchema (cached c) = Some "plain.form"
  /\ engineProfile (cached c) = None
  /\ isDirty c = false.
Proof. vm_compute. repeat split. Qed.

Example mount_imports_cloud :
  let '(c, _) := checkImport None (Fixture.mounted "cloud.form") in
  engineProfile (cached c)
  = Some (mkProfile (Some "Camunda Cloud") (Some "1.1")).
Proof. reflexivity. Qed.

Example edit_then_getXML :
  let c := fst (checkImport None (Fixture.mounted "plain.form")) in
  let edited := engineActions [Fixture.edit] c in
  isDirty edited = true
  /\ fst (fst (getXML edited)) = "edited.form"
  /\ isDirty (snd (fst (getXML edited))) = false
  /\ isDirty (engineActions [Fixture.edit; Fixture.edit] c) = true.
Proof. vm_compute. repeat split. Qed.

Example syntax_error_is_reported :
  snd (checkImport None (Fixture.mounted "not json"))
  = [Invoke_importSchema; OnImport (Some Fixture.syntaxError) None].
Proof. reflexivity. Qed.

(** C3 (as stated) fails. After a failed import nothing is cached and no
    import is in flight; a props update that keeps the schema prop (the
    re-render after the failure, say) differs from the cached [lastSchema]
    and yet does not invoke [importSchema]. *)
Lemma import_trigger_as_specified_fails :
  ~ importTrigger_as_specified (props Fixture.afterFailedImport)
                               Fixture.afterFailedImport.
Proof.
  unfold importTrigger_as_specified. intros [_ Hinvoked].
  assert (Hno : invokesImportSchema
                  (snd (updateProps (props Fixture.afterFailedImport)
                                    Fixture.afterFailedImport)) = false)
    by (vm_compute; reflexivity).
  rewrite Hinvoked in Hno; [discriminate|].
  split; [vm_compute; discriminate | vm_compute; reflexivity].
Qed.

Lemma import_success_caches_witness :
  let c' :=
    fst (FormEditorLife.importSchema_during [FixtureMore.cloudProps]
           (Fixture.mounted "plain.form")) in
  lastSchema (cached c') = Some "cloud.form"
  /\ form (cached c') = Fixture.mkForm Fixture.plainJson (-1)
  /\ stackIdx (cached c') = -1
  /\ engineProfile (cached c') = None.
Proof.
  destruct (import_success_caches (engine := Fixture.engine)
              [FixtureMore.cloudProps]
              (Fixture.mounted "plain.form") Fixture.plainJson
              (Fixture.mkForm Fixture.plainJson (-1)) (Some [])
              eq_refl (@eq_refl _ (inr Fixture.plainJson))
              (@eq_refl _ (Fixture.mkForm Fixture.plainJson (-1),
                           Resolved None (Some []))))
    as (Hlast & _ & Hform & Hidx & _ & Hnone & _).
  cbv zeta. rewrite Hlast, Hform, Hidx, Hnone by reflexivity.
  repeat split.
Defined.

(** C6 (as stated) fails. The editor imports [plain.form]; while the engine
    is at work the host hands it [cloud.form]. The update starts no import,
    and when the import has succeeded the form holds [plain.form], the
    schema imported, while [cloud.form] is cached as [lastSchema]. *)
Lemma caches_imported_schema_fails :
  ~ FormEditorLife.caches_imported_schema [FixtureMore.cloudProps]
      (Fixture.mounted "plain.form").
Proof.
  unfold FormEditorLife.caches_imported_schema. intros Hcached.
  specialize (Hcached Fixture.plainJson
                (Fixture.mkForm Fixture.plainJson (-1)) (Some [])
                (@eq_refl _ (inr Fixture.plainJson))
                (@eq_refl _ (Fixture.mkForm Fixture.plainJson (-1),
                             Resolved None (Some [])))).
  vm_compute in Hcached. discriminate Hcached.
Qed.

(** C5. Evaluation at the failing input: the import of the fixture with an
    unknown field type is rejected with an error that carries a warning.
    The cache is reset and the error reaches [onImport], but the warning is
    not passed on: [onImport] is called with the error alone, and the tab,
    whose [handleImport] would hand each warning it receives to
    [onWarning], surfaces none. *)
Theorem failed_import_drops_warnings :
  let c := Fixture.mounted "broken.form" in
  let calls := snd (importSchema c) in
  err_warnings Fixture.importError = Some ["unknown form field <unknown>"]
  /\ calls = [Invoke_importSchema; Form_importSchema Fixture.brokenJson;
              OnImport (Some Fixture.importError) None]
  /\ lastSchema (cached Fixture.afterFailedImport) = None
  /\ engineProfile (cached Fixture.afterFailedImport) = None
  /\ MultiSheetTab.surfacedWarnings
       (snd (Mounted.relayImport calls Fixture.tab)) = []
  /\ MultiSheetTab.surfacedWarnings
       (snd (MultiSheetTab.handleImport (Some Fixture.importError)
               (err_warnings Fixture.importError) Fixture.tab))
     = ["unknown form field <unknown>"].
Proof. vm_compute. repeat split. Qed.

End FormEditorFacts.

(** ** Multi-sheet tab container *)

Module MultiSheetTabFacts.

Import MultiSheetTab.

(** *** Object spread and the stable sort *)

Lemma fields_spreadMap (f : Sheet -> Sheet) (l : list SheetObj) (next : nat) :
  map fields (spreadMap f l next) = map f (map fields l).
Proof.
  revert next. induction l as [|x l IH]; intros next; simpl.
  - reflexivity.
  - now rewrite IH.
Qed.

Lemma defaultOrder_has_order (s : Sheet) :
  order (defaultOrder s) = Some (order_or_0 s).
Proof. reflexivity. Qed.

(** A sheet whose order is a number is left as it is. *)
Lemma defaultOrder_unaltered (s : Sheet) :
  order s <> None -> defaultOrder s = s.
Proof.
  destruct s as [i n d p t o]. unfold defaultOrder, order_or_0. simpl.
  destruct o as [z|]; [intros _ | congruence].
  destruct (z =? 0) eqn:Hz; [apply Z.eqb_eq in Hz; now subst | reflexivity].
Qed.

(** A sheet without an order gets order [0] and is otherwise untouched. *)
Lemma defaultOrder_absent (s : Sheet) :
  order s = None ->
  defaultOrder s = mkSheet (id s) (name s) (isDefault s) (provider s) (type s)
                           (Some 0).
Proof.
  intros Ho. unfold defaultOrder, order_or_0. now rewrite Ho.
Qed.

Lemma spreadMap_defaultOrder_ordered (l : list SheetObj) (next : nat) :
  Forall ordered (spreadMap defaultOrder l next).
Proof.
  revert next. induction l as [|x l IH]; intros next; simpl; constructor.
  - unfold ordered. simpl. discriminate.
  - apply IH.
Qed.

Lemma insert_perm (cmp : SheetObj -> SheetObj -> Z) x l :
  Permutation (insert cmp x l) (x :: l).
Proof.
  induction l as [|y l IH]; simpl.
  - reflexivity.
  - destruct (cmp x y <=? 0).
    + reflexivity.
    + rewrite IH. apply perm_swap.
Qed.

Lemma sort_perm (cmp : SheetObj -> SheetObj -> Z) l :
  Permutation (sort cmp l) l.
Proof.
  induction l as [|x l IH]; simpl.
  - reflexivity.
  - rewrite insert_perm. now constructor.
Qed.

Lemma le_order_trans x y z :
  le_order x y -> le_order y z -> le_order x z.
Proof.
  unfold le_order.
  destruct (order (fields x)), (order (fields y)), (order (fields z));
    try tauto. lia.
Qed.

Lemma compareFn_le x y :
  ordered x -> ordered y ->
  ((compareFn x y <=? 0) = true -> le_order x y)
  /\ ((compareFn x y <=? 0) = false -> le_order y x).
Proof.
  unfold ordered, compareFn, le_order.
  destruct (order (fields x)) as [a|], (order (fields y)) as [b|];
    try congruence.
  intros _ _. rewrite Z.leb_le, Z.leb_gt. lia.
Qed.

Lemma insert_sorted x l :
  Forall ordered (x :: l) ->
  StronglySorted le_order l ->
  StronglySorted le_order (insert compareFn x l).
Proof.
  intros Hord. inversion Hord as [|? ? Hx Hl]; subst. clear Hord.
  induction l as [|y l IH]; intros Hs; simpl.
  - repeat constructor.
  - inversion Hl as [|? ? Hy Hl']; subst.
    inversion Hs as [|? ? Hs' Hle]; subst.
    destruct (compareFn_le x y Hx Hy) as (Hle1 & Hle2).
    destruct (compareFn x y <=? 0).
    + constructor; [exact Hs|].
      constructor; [now apply Hle1|].
      eapply Forall_impl; [|exact Hle].
      intros z Hz. eapply le_order_trans; [now apply Hle1 | exact Hz].
    + constructor; [now apply IH|].
      eapply Permutation_Forall; [symmetry; apply insert_perm|].
      constructor; [now apply Hle2 | exact Hle].
Qed.

Lemma sort_sorted l :
  Forall ordered l -> StronglySorted le_order (sort compareFn l).
Proof.
  induction l as [|x l IH]; intros Hord; simpl.
  - constructor.
  - inversion Hord; subst. apply insert_sorted.
    + constructor; [assumption|].
      eapply Permutation_Forall; [symmetry; apply sort_perm | assumption].
    + now apply IH.
Qed.

(** Stability: the sheets of any one order keep the sequence they had
    before sorting. *)
Lemma insert_stable (k : Z) x l :
  filter (fun s => orderIs k (fields s)) (insert compareFn x l)
  = filter (fun s => orderIs k (fields s)) (x :: l).
Proof.
  induction l as [|y l IH]; [reflexivity|].
  cbn [insert]. destruct (compareFn x y <=? 0) eqn:Hcmp; [reflexivity|].
  cbn [filter] in *. rewrite IH.
  destruct (orderIs k (fields x)) eqn:Hx, (orderIs k (fields y)) eqn:Hy;
    try reflexivity.
  exfalso. unfold orderIs, compareFn in *.
  destruct (order (fields x)) as [a|], (order (fields y)) as [b|];
    try discriminate.
  apply Z.eqb_eq in Hx, Hy. apply Z.leb_gt in Hcmp. lia.
Qed.

Lemma sort_stable (k : Z) l :
  filter (fun s => orderIs k (fields s)) (sort compareFn l)
  = filter (fun s => orderIs k (fields s)) l.
Proof.
  induction l as [|x l IH]; [reflexivity|].
  cbn [sort fold_right]. rewrite insert_stable.
  cbn [filter]. fold (sort compareFn l). now rewrite IH.
Qed.

Lemma filter_map_fields (P : Sheet -> bool) (l : list SheetObj) :
  filter P (map fields l) = map fields (filter (fun s => P (fields s)) l).
Proof.
  induction l as [|x l IH]; simpl; [reflexivity|].
  destruct (P (fields x)); simpl; now rewrite IH.
Qed.

(** The two object spreads of [sheetsChanged], written out property by
    property. *)
Lemma defaultOrder_explicit (s : Sheet) :
  defaultOrder s
  = mkSheet (id s) (name s) (isDefault s) (provider s) (type s)
            (Some match order s with Some z => z | None => 0 end).
Proof.
  unfold defaultOrder, order_or_0. destruct (order s) as [z|]; [|reflexivity].
  destruct (Z.eqb_spec z 0) as [->|_]; reflexivity.
Qed.

Lemma defaultOrder_wire_explicit (p : Provider) (s : Sheet) :
  defaultOrder (wire p s)
  = mkSheet (id s) (name s) (isDefault s) p (type s)
            (Some match order s with Some z => z | None => 0 end).
Proof. rewrite defaultOrder_explicit. reflexivity. Qed.

(** *** Sheet reconciliation *)

Section WithEditor.

Context {E : Type} {editorClass : Editor E}.

Implicit Types (t : Tab E) (a sheet : SheetObj).

(** C1 (amended). [sheetsChanged(newSheets, newActiveSheet)] on a tab
    whose cached sheets are [prior] and whose active sheet is [a] caches
    exactly: the sheets of [prior] whose provider is not [a.provider],
    unaltered but for an absent order, which becomes [0], plus [newSheets]
    with [a.provider] as their provider and with their order, or [0] when
    absent; the result is sorted by ascending order, stably. When
    [newActiveSheet] is supplied the active sheet becomes the sheet of the
    result whose id is [newActiveSheet.id] (the first one; [undefined] if
    there is none); otherwise it stays [a]. *)
Theorem sheetsChanged_reconciles (newSheets : list SheetObj)
    (newActiveSheet : option SheetObj) t a :
  activeSheet (cached t) = Some a ->
  let prior := match sheets (cached t) with Some l => l | None => [] end in
  let p := provider (fields a) in
  let orderOr0 (s : Sheet) :=
    match order s with Some z => z | None => 0 end in
  let kept (s : Sheet) :=
    mkSheet (id s) (name s) (isDefault s) (provider s) (type s)
            (Some (orderOr0 s)) in
  let reported (s : Sheet) :=
    mkSheet (id s) (name s) (isDefault s) p (type s) (Some (orderOr0 s)) in
  let others :=
    filter (fun s => negb (same_provider (provider (fields s)) p)) prior in
  let expected :=
    map kept (map fields others) ++ map reported (map fields newSheets) in
  exists t' R,
    sheetsChanged newSheets newActiveSheet t = inr t'
    /\ sheets (cached t') = Some R
    /\ Permutation (map fields R) expected
    /\ StronglySorted le_order R
    /\ (forall k, filter (orderIs k) (map fields R)
                  = filter (orderIs k) expected)
    /\ (forall s, In s prior ->
                  same_provider (provider (fields s)) p = false ->
                  In (kept (fields s)) (map fields R)
                  /\ (order (fields s) <> None ->
                      In (fields s) (map fields R)))
    /\ (forall s, In s newSheets -> In (reported (fields s)) (map fields R))
    /\ (forall r, In r R ->
                  order (fields r) <> None
                  /\ (same_provider (provider (fields r)) p = true ->
                      exists s, In s newSheets /\ fields r = reported (fields s)))
    /\ activeSheet (cached t')
       = match newActiveSheet with
         | Some n => find (fun s => String.eqb (id (fields s)) (id (fields n))) R
         | None => Some a
         end
    /\ (forall n, newActiveSheet = Some n ->
          ((exists s, In s R /\ id (fields s) = id (fields n)) ->
           exists s', activeSheet (cached t') = Some s'
                      /\ In s' R /\ id (fields s') = id (fields n))
          /\ ((forall s, In s R -> id (fields s) <> id (fields n)) ->
              activeSheet (cached t') = None))
    /\ lastXML (cached t') = lastXML (cached t).
Proof.
  intros Ha prior p orderOr0 kept reported others expected.
  unfold sheetsChanged. rewrite Ha. fold prior. fold p. fold others.
  set (wired := others ++ spreadMap (wire p) newSheets (nextRef t)).
  set (spread := spreadMap defaultOrder wired _).
  set (R := sort compareFn spread).
  assert (Hfields : map fields spread = expected).
  { unfold spread, wired, expected.
    rewrite fields_spreadMap, map_app, fields_spreadMap, map_app, !map_map.
    f_equal; apply map_ext; intros s.
    - apply defaultOrder_explicit.
    - apply defaultOrder_wire_explicit. }
  assert (Hperm : Permutation (map fields R) expected).
  { rewrite <- Hfields. apply Permutation_map, sort_perm. }
  assert (Hkept : forall s, In s prior ->
             same_provider (provider (fields s)) p = false ->
             In (kept (fields s)) (map fields R)).
  { intros s Hin Hother.
    eapply Permutation_in; [symmetry; exact Hperm|].
    unfold expected. apply in_or_app. left. rewrite map_map.
    apply (in_map (fun x => kept (fields x))).
    apply filter_In. split; [exact Hin | now rewrite Hother]. }
  eexists. exists R.
  split; [reflexivity|].
  split; [reflexivity|].
  split; [exact Hperm|].
  split; [apply sort_sorted, spreadMap_defaultOrder_ordered|].
  split.
  { intros k. rewrite <- Hfields, !filter_map_fields.
    unfold R. now rewrite sort_stable. }
  split.
  { intros s Hin Hother. split; [now apply Hkept|].
    intros Hord. specialize (Hkept s Hin Hother).
    unfold kept in Hkept. rewrite <- defaultOrder_explicit in Hkept.
    now rewrite (defaultOrder_unaltered (fields s) Hord) in Hkept. }
  split.
  { intros s Hin.
    eapply Permutation_in; [symmetry; exact Hperm|].
    unfold expected. apply in_or_app. right. rewrite map_map.
    now apply (in_map (fun x => reported (fields x))). }
  split.
  { intros r Hin. apply (in_map fields) in Hin.
    apply (Permutation_in _ Hperm) in Hin. unfold expected in Hin.
    apply in_app_or in Hin. rewrite !map_map in Hin.
    destruct Hin as [Hin|Hin]; apply in_map_iff in Hin;
      destruct Hin as (s & Heq & Hs); rewrite <- Heq.
    - split; [discriminate|]. simpl. intros Hp.
      apply filter_In in Hs. destruct Hs as (_ & Hother).
      apply negb_true_iff in Hother. congruence.
    - split; [discriminate|]. intros _. now exists s. }
  split; [reflexivity|].
  split; [|reflexivity].
  intros n ->. simpl. split.
  - intros (s & Hin & Hid).
    destruct (find _ R) as [s'|] eqn:Hfind.
    + apply find_some in Hfind. destruct Hfind as (Hin' & Hid').
      apply String.eqb_eq in Hid'. now exists s'.
    + apply (find_none _ _ Hfind) in Hin.
      apply String.eqb_neq in Hin. contradiction.
  - intros Hnone.
    destruct (find _ R) as [s'|] eqn:Hfind; [|reflexivity].
    apply find_some in Hfind. destruct Hfind as (Hin' & Hid').
    apply String.eqb_eq in Hid'. now apply Hnone in Hin'.
Qed.

(** Without an active sheet [sheetsChanged] throws. *)
Lemma sheetsChanged_without_active (newSheets : list SheetObj)
    (newActiveSheet : option SheetObj) t :
  activeSheet (cached t) = None ->
  sheetsChanged newSheets newActiveSheet t = inl typeError.
Proof. intros Ha. unfold sheetsChanged. now rewrite Ha. Qed.

(** *** Switching sheets *)

(** C2. [switchSheet(sheet)] with [sheet] not the active sheet object. If
    [sheet] has the provider of the active sheet, the editor's [getXML] is
    not called and a single [setCached] updates the active sheet alone. If
    the providers differ, [getXML] is called first; once it has resolved, a
    single [setCached] stores its result as [lastXML] together with the new
    active sheet, and the change is announced to the host. If [getXML]
    rejects nothing is cached. *)
Theorem switchSheet_fetches_across_providers sheet t a :
  activeSheet (cached t) = Some a ->
  same_sheet sheet a = false ->
  (same_provider (provider (fields sheet)) (provider (fields a)) = true ->
   let p := mkPatch None (Some (Some sheet)) None in
   switchSheet sheet t = (setCached p t, [SetCached p], Fulfilled)
   /\ callsGetXML (snd (fst (switchSheet sheet t))) = false
   /\ activeSheet (cached (setCached p t)) = Some sheet
   /\ lastXML (cached (setCached p t)) = lastXML (cached t)
   /\ sheets (cached (setCached p t)) = sheets (cached t)
   /\ editor (setCached p t) = editor t)
  /\ (same_provider (provider (fields sheet)) (provider (fields a)) = false ->
      (exists rest, snd (fst (switchSheet sheet t)) = Editor_getXML :: rest)
      /\ (forall e xml,
             editor_getXML (editor t) = (e, inr xml) ->
             let p := mkPatch None (Some (Some sheet)) (Some xml) in
             let t' := fst (fst (switchSheet sheet t)) in
             switchSheet sheet t
             = (setCached p (withEditor e t),
                [Editor_getXML; SetCached p;
                 OnAction (Emit_activeSheetChanged sheet)],
                Fulfilled)
             /\ lastXML (cached t') = Some xml
             /\ activeSheet (cached t') = Some sheet
             /\ sheets (cached t') = sheets (cached t))
      /\ (forall e err,
             editor_getXML (editor t) = (e, inl err) ->
             switchSheet sheet t = (withEditor e t, [Editor_getXML], Failed err)
             /\ cached (withEditor e t) = cached t)).
Proof.
  intros Ha Hdistinct. unfold switchSheet. rewrite Ha, Hdistinct.
  split; intros Hprov; rewrite Hprov.
  - cbv zeta. repeat split.
  - split; [|split].
    + destruct (editor_getXML (editor t)) as [e [err|xml]]; eexists; reflexivity.
    + intros e xml Hget. rewrite Hget. cbv zeta. repeat split.
    + intros e err Hget. rewrite Hget. repeat split.
Qed.

(** *** Dirty state of the tab *)

(** The tab is dirty when its editor reports so, or when a document is
    cached as [lastXML] that is not the string of the xml prop. *)
Lemma tab_isDirty_iff (dirty : bool) t :
  isDirty dirty t = true <->
  dirty = true
  \/ exists last, lastXML (cached t) = Some last
                  /\ last <> "" /\ last <> xml (props t).
Proof.
  unfold isDirty, isXMLChange, truthy_string.
  destruct dirty; [intuition|].
  destruct (lastXML (cached t)) as [last|].
  - destruct (String.eqb_spec last "") as [Hempty|Hfull]; simpl.
    + split; [discriminate|].
      intros [Hd | (l & Hl & Hne & _)]; [discriminate|]. congruence.
    + rewrite negb_true_iff, String.eqb_neq. split.
      * intros Hchg. right. now exists last.
      * intros [Hd | (l & Hl & _ & Hchg)]; [discriminate|]. congruence.
  - split; [discriminate|].
    intros [Hd | (l & Hl & _)]; discriminate.
Qed.

(** Switching to the active sheet object itself does nothing. *)
Lemma switchSheet_same_sheet sheet t a :
  activeSheet (cached t) = Some a ->
  same_sheet sheet a = true ->
  switchSheet sheet t = (t, [], Fulfilled).
Proof. intros Ha Hsame. unfold switchSheet. now rewrite Ha, Hsame. Qed.

End WithEditor.

#[local] Existing Instance Mounted.formEditor_editor.

(** Leaving a dirty form editor for a sheet of another provider caches the
    serialized form as [lastXML] and leaves the editor clean. *)
Lemma switchSheet_from_dirty_form {Form json : Type}
    {engine : FormEditor.FormEngine Form json}
    (sheet a : SheetObj) (t : Tab (FormEditor.FormEditor Form)) :
  activeSheet (cached t) = Some a ->
  same_sheet sheet a = false ->
  same_provider (provider (fields sheet)) (provider (fields a)) = false ->
  FormEditor.isDirty (editor t) = true ->
  let t' := fst (fst (switchSheet sheet t)) in
  lastXML (cached t')
  = Some (FormEditor.JSON_stringify
            (FormEditor.form_saveSchema
               (FormEditor.form (FormEditor.cached (editor t)))))
  /\ activeSheet (cached t') = Some sheet
  /\ FormEditor.isDirty (editor t') = false.
Proof.
  intros Ha Hdistinct Hprov Hdirty.
  unfold switchSheet. rewrite Ha, Hdistinct, Hprov.
  cbn [editor_getXML Mounted.formEditor_editor].
  unfold FormEditor.getXML. rewrite Hdirty. cbn.
  repeat split. unfold FormEditor.isDirty. cbn. now rewrite Z.eqb_refl.
Qed.

(** *** Runs on the test double *)

#[local] Existing Instance Fixture.editor.

Example tab_constructed :
  sheets (cached Fixture.tab) = Some [Fixture.formSheet; Fixture.jsonSheet]
  /\ activeSheet (cached Fixture.tab) = Some Fixture.formSheet
  /\ nextRef Fixture.tab = 4%nat.
Proof. repeat split. Qed.

(** The form editor reports its pages and makes page 1 the active sheet:
    the JSON sheet is kept, the form sheet is replaced by the two pages, and
    the sheets of order [0] precede page 2. *)
Example pages_reported :
  match sheetsChanged Fixture.reported (nth_error Fixture.reported 1)
                      Fixture.tab with
  | inr t' =>
      option_map (map (fun s => (id (fields s), order (fields s))))
                 (sheets (cached t'))
      = Some [("json", Some 0); ("page-1", Some 0); ("page-2", Some 2)]
      /\ option_map (fun s => id (fields s)) (activeSheet (cached t'))
         = Some "page-1"
  | inl _ => False
  end.
Proof. vm_compute. repeat split. Qed.

(** An active sheet that is not among the reported ones leaves the tab
    without an active sheet. *)
Example unknown_active_sheet :
  match sheetsChanged Fixture.reported (Some Fixture.formSheet)
                      Fixture.tab with
  | inr t' => activeSheet (cached t') = None
  | inl _ => False
  end.
Proof. reflexivity. Qed.

Lemma sheetsChanged_reconciles_witness :
  exists t' R,
    sheetsChanged FixtureMore.reportedUnwired
                  (nth_error FixtureMore.reportedUnwired 1) Fixture.tab
    = inr t'
    /\ sheets (cached t') = Some R
    /\ map fields R
       = [ mkSheet "json" "JSON" true Fixture.jsonProvider "json" (Some 0);
           mkSheet "page-1" "Page 1" false Fixture.formProvider "page"
                   (Some 0);
           mkSheet "page-2" "Page 2" false Fixture.formProvider "page"
                   (Some 2) ]
    /\ option_map fields (activeSheet (cached t'))
       = Some (mkSheet "page-1" "Page 1" false Fixture.formProvider "page"
                       (Some 0)).
Proof.
  destruct (sheetsChanged_reconciles FixtureMore.reportedUnwired
              (nth_error FixtureMore.reportedUnwired 1) Fixture.tab
              Fixture.formSheet eq_refl)
    as (t' & R & Hrun & Hsheets & _).
  exists t', R.
  vm_compute in Hrun. injection Hrun as <-.
  vm_compute in Hsheets. injection Hsheets as <-.
  repeat split; reflexivity.
Defined.

(** C1 (as stated) fails. The tab of the fixture shows its form sheet; the
    JSON sheet, of the other provider, has no order. When the form editor
    reports its pages the JSON sheet is cached with order [0]: the sheets of
    the other providers are not all kept unaltered. *)
Lemma sheetsChanged_as_specified_fails :
  ~ MultiSheetTabMore.reconciles_as_specified
      Fixture.reported (nth_error Fixture.reported 1) Fixture.tab
      Fixture.formSheet.
Proof.
  unfold MultiSheetTabMore.reconciles_as_specified.
  intros (t' & l & Hrun & Hsheets & Hperm).
  vm_compute in Hrun. injection Hrun as <-.
  vm_compute in Hsheets. injection Hsheets as <-.
  apply Permutation_sym in Hperm.
  apply (Permutation_in (fields Fixture.jsonSheet)) in Hperm;
    [|left; reflexivity].
  vm_compute in Hperm.
  destruct Hperm as [H|[H|[H|[]]]]; discriminate H.
Qed.

Lemma switchSheet_fetches_across_providers_witness :
  same_sheet Fixture.jsonSheet Fixture.formSheet = false
  /\ switchSheet Fixture.jsonSheet Fixture.tab
     = (setCached (mkPatch None (Some (Some Fixture.jsonSheet))
                           (Some "plain.form"))
                  Fixture.tab,
        [Editor_getXML;
         SetCached (mkPatch None (Some (Some Fixture.jsonSheet))
                            (Some "plain.form"));
         OnAction (Emit_activeSheetChanged Fixture.jsonSheet)],
        Fulfilled).
Proof.
  split; [reflexivity|].
  destruct (switchSheet_fetches_across_providers Fixture.jsonSheet
              Fixture.tab Fixture.formSheet eq_refl eq_refl)
    as (_ & Hdiffer).
  destruct (Hdiffer eq_refl) as (_ & Hresolved & _).
  destruct (Hresolved "plain.form" "plain.form" eq_refl) as (Hrun & _).
  exact Hrun.
Defined.

End MultiSheetTabFacts.

(** ** Log panel *)

Module LogFacts.

Import Log.

(** X1. Toggling reports the layout with [open] negated and the height kept;
    toggling again, once the host has handed that layout back, reports the
    layout the log started with. *)
Theorem toggle_twice_restores (c : Log) :
  exists l,
    toggle c = [OnLayoutChanged l]
    /\ height l = height (layout (props c))
    /\ open l = negb (open (layout (props c)))
    /\ toggle (withLayout l c) = [OnLayoutChanged (layout (props c))].
Proof.
  unfold toggle, changeLayout. eexists. repeat split.
  simpl. rewrite negb_involutive. now destruct (layout (props c)).
Qed.

(** X2. Whatever the drag, a layout reported by [handleResize] has a height
    above 25: either the log stays open at the dragged height, or it is
    closed and reset to the default layout. A drag of [0] reports nothing. *)
Theorem resize_reports_usable_height (y : Z) (c : Log) (l : Layout) :
  In (OnLayoutChanged l) (handleResize y c) ->
  y <> 0
  /\ 25 < height l
  /\ (open l = true -> originalHeight c = Some (height l + y))
  /\ (open l = false -> l = DEFAULT_LAYOUT).
Proof.
  unfold handleResize, changeLayout.
  destruct (Z.eqb_spec y 0) as [Hy|Hy]; [intros []|].
  destruct (originalHeight c) as [h|]; simpl.
  - destruct (Z.ltb_spec 25 (h - y)) as [Hlt|Hge];
      intros [Heq|[]]; injection Heq as <-; simpl.
    + repeat split; trivial; try discriminate.
      intros _. f_equal. lia.
    + repeat split; trivial; try lia; try discriminate.
  - intros [Heq|[]]. injection Heq as <-. simpl.
    repeat split; trivial; try lia; try discriminate.
Qed.

Lemma resize_reports_usable_height_witness :
  In (OnLayoutChanged (mkLayout 200 true))
     (handleResize (-70)
        (handleResizeStart
           (fst (render (mkLog (mkProps (mkEntries 0 []) (mkLayout 130 true))
                               None None)))))
  /\ 25 < 200.
Proof.
  assert (Hin : In (OnLayoutChanged (mkLayout 200 true))
                   (handleResize (-70)
                      (handleResizeStart
                         (fst (render (mkLog (mkProps (mkEntries 0 [])
                                                      (mkLayout 130 true))
                                             None None))))))
    by (left; reflexivity).
  split; [exact Hin|].
  exact (proj1 (proj2 (resize_reports_usable_height _ _ _ Hin))).
Defined.

(** A drag that starts on the rendered log measures from the height of the
    layout prop. *)
Lemma resize_from_rendered (y : Z) (c : Log) :
  y <> 0 ->
  handleResize y (handleResizeStart (fst (render c)))
  = [OnLayoutChanged
       (if 25 <? height (layout (props c)) - y
        then mkLayout (height (layout (props c)) - y) true
        else DEFAULT_LAYOUT)].
Proof.
  intros Hy. unfold handleResize, handleResizeStart, render. simpl.
  apply Z.eqb_neq in Hy. rewrite Hy.
  now destruct (25 <? _).
Qed.

Lemma renderEntries_idx (l : list Entry) (k : nat) :
  map data_idx (renderEntries l k) = seq k (List.length l).
Proof.
  revert k. induction l as [|e l IH]; intros k; simpl; [reflexivity|].
  now rewrite IH.
Qed.

Lemma renderEntry_msg (idx : nat) (e : Entry) :
  msg (renderEntry idx e) <> "".
Proof.
  unfold renderEntry. simpl.
  destruct (message e) as [m|]; [|discriminate].
  unfold truthy_string.
  destruct (String.eqb_spec m ""); simpl; [discriminate | assumption].
Qed.

Lemma renderEntries_msg (l : list Entry) (k : nat) :
  Forall (fun v => msg v <> "") (renderEntries l k).
Proof.
  revert k. induction l as [|e l IH]; intros k; simpl; constructor.
  - apply renderEntry_msg.
  - apply IH.
Qed.

(** X3. The open log renders one node per entry, numbered from 0 in the order
    of the entries, and no node has an empty text: a missing or empty
    message is put out as a single space. The closed log renders none. *)
Theorem render_numbers_entries (c : Log) :
  (open (layout (props c)) = true ->
   map data_idx (snd (render c))
   = seq 0 (List.length (items (entries (props c)))))
  /\ (open (layout (props c)) = false -> snd (render c) = [])
  /\ Forall (fun v => msg v <> "") (snd (render c))
  /\ (forall i e m,
         open (layout (props c)) = true ->
         nth_error (items (entries (props c))) i = Some e ->
         message e = Some m -> m <> "" ->
         option_map msg (nth_error (snd (render c)) i) = Some m)
  /\ (forall i e,
         open (layout (props c)) = true ->
         nth_error (items (entries (props c))) i = Some e ->
         message e = None \/ message e = Some EmptyString ->
         option_map msg (nth_error (snd (render c)) i) = Some " ").
Proof.
  unfold render. simpl. split; [|split; [|split; [|split]]].
  - intros ->. apply renderEntries_idx.
  - now intros ->.
  - destruct (open _); [apply renderEntries_msg | constructor].
  - intros i e m -> Hnth Hm Hne.
    assert (Hgen : forall l k i,
               nth_error l i = Some e ->
               option_map msg (nth_error (renderEntries l k) i) = Some m).
    { induction l as [|x l IH]; intros k [|j]; simpl; try discriminate.
      - intros [= ->]. unfold renderEntry. simpl. rewrite Hm.
        unfold truthy_string. apply String.eqb_neq in Hne. now rewrite Hne.
      - apply IH. }
    now apply Hgen.
  - intros i e -> Hnth Hm.
    assert (Hgen : forall l k i,
               nth_error l i = Some e ->
               option_map msg (nth_error (renderEntries l k) i) = Some " ").
    { induction l as [|x l IH]; intros k [|j]; simpl; try discriminate.
      - intros [= ->]. unfold renderEntry. simpl.
        now destruct Hm as [-> | ->].
      - apply IH. }
    now apply Hgen.
Qed.

Lemma find_rendered (l : list Entry) (k n : nat) :
  (k <= n < k + List.length l)%nat ->
  exists v, find (fun v => Z.of_nat (data_idx v) =? Z.of_nat n)
                 (renderEntries l k) = Some v
            /\ data_idx v = n.
Proof.
  revert k. induction l as [|e l IH]; intros k Hn; simpl in *; [lia|].
  destruct (Z.eqb_spec (Z.of_nat k) (Z.of_nat n)) as [Heq|Hne].
  - eexists. split; [reflexivity|]. simpl. lia.
  - apply IH. lia.
Qed.

(** X4. [componentDidUpdate] never fails on a missing node. It scrolls exactly
    when the log is open, the entries array has been replaced and is not
    empty, and then to the node of the last entry. *)
Theorem update_scrolls_to_last_entry (prevProps : Props) (c : Log) :
  let n := List.length (items (entries (props c))) in
  exists calls,
    componentDidUpdate prevProps c = inr calls
    /\ (calls = [] \/ calls = [ScrollIntoView (n - 1)])
    /\ (calls <> [] <->
        open (layout (props c)) = true
        /\ entries_ref (entries prevProps) <> entries_ref (entries (props c))
        /\ n <> 0%nat).
Proof.
  cbv zeta. unfold componentDidUpdate, checkFocus.
  destruct (open (layout (props c))) eqn:Hopen; simpl.
  2:{ exists []. split; [reflexivity|]. split; [now left|].
      split; [intros H; now elim H | intros (Ho & _); discriminate]. }
  destruct (Nat.eqb_spec (entries_ref (entries prevProps))
                         (entries_ref (entries (props c)))) as [Href|Href];
    simpl.
  { exists []. split; [reflexivity|]. split; [now left|].
    split; [intros H; now elim H | intros (_ & H & _); contradiction]. }
  set (l := items (entries (props c))).
  destruct (Z.eqb_spec (Z.of_nat (List.length l) - 1) (-1)) as [Hlast|Hlast];
    simpl.
  { exists []. split; [reflexivity|]. split; [now left|].
    split; [intros H; now elim H | intros (_ & _ & H); lia]. }
  unfold render. simpl. rewrite Hopen. fold l.
  destruct (find_rendered l 0 (List.length l - 1)) as (v & Hfind & Hidx);
    [lia|].
  replace (Z.of_nat (List.length l) - 1) with (Z.of_nat (List.length l - 1))
    by lia.
  rewrite Hfind, Hidx.
  eexists. split; [reflexivity|]. split; [now right|].
  split; [|discriminate]. intros _. repeat split; trivial. lia.
Qed.

(** Escape toggles the log whatever the modifier keys. *)
Lemma escape_toggles (event : KeyEvent) (c : Log) :
  keyCode event = 27 -> handleKeyDown event c = PreventDefault :: toggle c.
Proof. intros Hk. unfold handleKeyDown. now rewrite Hk. Qed.

(** A key the log does not handle is not prevented. *)
Lemma unhandled_key (event : KeyEvent) (c : Log) :
  keyCode event <> 27 ->
  keyCode event <> 65 \/ (ctrlKey event = false /\ metaKey event = false) ->
  handleKeyDown event c = [].
Proof.
  intros H27 H65. unfold handleKeyDown.
  apply Z.eqb_neq in H27. rewrite H27.
  destruct H65 as [H65 | [-> ->]].
  - apply Z.eqb_neq in H65. now rewrite H65.
  - now rewrite andb_false_r.
Qed.

End LogFacts.

(** ** Platform modeler modules *)

Module BpmnModelerFacts.

Import BpmnModeler.

(** X5. The module list of the platform modeler holds every extension module
    and, of the base modeler's modules, exactly those that bring neither a
    [propertiesPanel] nor a [propertiesProvider]; the extension modules come
    last, and excluding twice excludes no more than once. *)
Theorem modules_without_old_panel (defaultModules extensionModules : list ModuleDef) :
  (forall m,
      In m (_modules defaultModules extensionModules) <->
      (In m defaultModules
       /\ has m "propertiesPanel" = false
       /\ has m "propertiesProvider" = false)
      \/ In m extensionModules)
  /\ (exists kept,
         _modules defaultModules extensionModules = kept ++ extensionModules
         /\ Forall (fun m => has m "propertiesPanel" = false
                             /\ has m "propertiesProvider" = false) kept)
  /\ excludeOldModules (excludeOldModules defaultModules)
     = excludeOldModules defaultModules.
Proof.
  unfold _modules, excludeOldModules. split; [|split].
  - intros m. rewrite in_app_iff, filter_In, andb_true_iff, !negb_true_iff.
    tauto.
  - eexists. split; [reflexivity|].
    apply Forall_forall. intros m Hin. apply filter_In in Hin.
    destruct Hin as (_ & Hkeep).
    now rewrite andb_true_iff, !negb_true_iff in Hkeep.
  - induction defaultModules as [|m l IH]; simpl; [reflexivity|].
    destruct (negb (has m "propertiesPanel")
              && negb (has m "propertiesProvider")) eqn:Hm; simpl.
    + now rewrite Hm, IH.
    + exact IH.
Qed.

End BpmnModelerFacts.

(** ** Engine profile selection and status-bar button *)

Module SelectionFacts.

Import EngineProfile EngineProfileView.

Lemma engineProfilesEqual_eq (a b : EngineProfile) :
  engineProfilesEqual (Some a) (Some b) = true <-> a = b.
Proof.
  simpl. rewrite andb_true_iff, !strict_eq_ostring_true.
  destruct a, b; simpl. split.
  - intros [-> ->]. reflexivity.
  - intros [= -> ->]. now split.
Qed.

Lemma engineProfilesEqual_refl (a : EngineProfile) :
  engineProfilesEqual (Some a) (Some a) = true.
Proof. now apply engineProfilesEqual_eq. Qed.

Lemma checked_iff (s : Selection) (o : EngineProfile) :
  checked s o = true <-> selectedEngineProfile s = Some o.
Proof.
  unfold checked. destruct (selectedEngineProfile s) as [a|].
  - rewrite engineProfilesEqual_eq. split; congruence.
  - simpl. split; discriminate.
Qed.

Lemma filter_none {A : Type} (f : A -> bool) (l : list A) :
  (forall x, In x l -> f x = false) -> filter f l = [].
Proof.
  induction l as [|x l IH]; intros Hall; simpl; [reflexivity|].
  rewrite (Hall x (or_introl eq_refl)). apply IH.
  intros y Hy. apply Hall. now right.
Qed.

Lemma options_NoDup : NoDup options.
Proof.
  unfold options. repeat constructor; simpl; intuition discriminate.
Qed.

Lemma filter_checked_short (s : Selection) (l : list EngineProfile) :
  NoDup l -> (List.length (filter (checked s) l) <= 1)%nat.
Proof.
  induction 1 as [|o l Hnotin Hnd IH]; simpl; [lia|].
  destruct (checked s o) eqn:Ho; [|exact IH].
  apply checked_iff in Ho.
  assert (Hnone : filter (checked s) l = []).
  { apply filter_none. intros o' Hin.
    destruct (checked s o') eqn:Ho'; [|reflexivity].
    apply checked_iff in Ho'. congruence. }
  simpl. rewrite Hnone. simpl. lia.
Qed.

(** X6. Whatever is staged, at most one of the offered options is shown as
    checked, and an option is checked exactly when it is the staged one; a
    staged profile that is not on offer checks none. *)
Theorem at_most_one_option_checked (s : Selection) :
  (List.length (filter (checked s) options) <= 1)%nat
  /\ (forall o, checked s o = true <-> selectedEngineProfile s = Some o)
  /\ ((forall o, In o options -> selectedEngineProfile s <> Some o) ->
      filter (checked s) options = []).
Proof.
  split; [apply filter_checked_short, options_NoDup | split].
  - intros o. apply checked_iff.
  - intros Hoff. apply filter_none. intros o Hin.
    destruct (checked s o) eqn:Ho; [|reflexivity].
    apply checked_iff in Ho. now apply Hoff in Hin.
Qed.

(** X7. Clicking an option that is not staged stages it, checks it alone and
    clears the error; clicking it again unstages it, and a confirmation
    then is rejected with the error and without a call on the props. *)
Theorem click_stages_and_unstages (platform version : string)
    (engineProfile : option EngineProfile) (s : Selection) :
  let chosen := mkProfile (Some platform) (Some version) in
  let s1 := onSelectEngineProfile platform version s in
  let s2 := onSelectEngineProfile platform version s1 in
  (selectedEngineProfile s = Some chosen -> selectedEngineProfile s1 = None)
  /\ (selectedEngineProfile s <> Some chosen ->
      selectedEngineProfile s1 = Some chosen
      /\ error s1 = false
      /\ (forall o, checked s1 o = true <-> o = chosen)
      /\ selectedEngineProfile s2 = None
      /\ setEngineProfile engineProfile s2 = (mkSelection None true, [])).
Proof.
  cbv zeta. unfold onSelectEngineProfile.
  set (chosen := mkProfile (Some platform) (Some version)).
  fold (checked s chosen).
  destruct (checked s chosen) eqn:Hchecked.
  - apply checked_iff in Hchecked. split; [reflexivity | congruence].
  - split.
    + intros Hsel. apply checked_iff in Hsel. congruence.
    + intros _. cbn [selectedEngineProfile error].
      rewrite engineProfilesEqual_refl.
      repeat split; try reflexivity.
      * intros Ho. apply checked_iff in Ho. simpl in Ho. congruence.
      * intros ->. apply checked_iff. reflexivity.
Qed.

(** X8. Confirming the selection the overlay opened with (the profile already
    set) does nothing at all: no call on the props, so the overlay stays
    open, and no error is shown. *)
Theorem apply_unchanged_selection_is_silent (p : EngineProfile) :
  setEngineProfile (Some p) (initial (Some p)) = (initial (Some p), [])
  /\ renderedError (fst (setEngineProfile (Some p) (initial (Some p)))) = None.
Proof.
  unfold setEngineProfile, initial. cbn [selectedEngineProfile].
  rewrite engineProfilesEqual_refl. split; reflexivity.
Qed.

Section OnTheFormEditor.

Context {Form json : Type} {engine : FormEditor.FormEngine Form json}.

(** X9. Staging an option that differs from the cached profile and confirming
    it hands exactly that profile to the form editor and closes the
    overlay: the editor writes it to the form through the modeling service
    and caches it, leaving the cached schema and the baseline stack position
    as they were; the status bar then shows the new profile. *)
Theorem select_and_apply_sets_profile (platform version : string)
    (s : Selection) (c : FormEditor.FormEditor Form) :
  let chosen := mkProfile (Some platform) (Some version) in
  let current := FormEditor.engineProfile (FormEditor.cached c) in
  selectedEngineProfile s <> Some chosen ->
  current <> Some chosen ->
  let calls :=
    snd (setEngineProfile current
           (onSelectEngineProfile platform version s)) in
  let c' := FormEditor.dispatchPropCalls calls c in
  calls = [SetEngineProfile chosen; OnClose]
  /\ FormEditor.engineProfile (FormEditor.cached c') = Some chosen
  /\ FormEditor.form (FormEditor.cached c')
     = FormEditor.modeling_editFormField
         (FormEditor.form (FormEditor.cached c)) chosen
  /\ FormEditor.lastSchema (FormEditor.cached c')
     = FormEditor.lastSchema (FormEditor.cached c)
  /\ FormEditor.stackIdx (FormEditor.cached c')
     = FormEditor.stackIdx (FormEditor.cached c)
  /\ (forall open,
         option_map label (snd (renderFormEditor c' open))
         = Some (Some (platform ++ " " ++ version)%string)).
Proof.
  cbv zeta. intros Hsel Hcur.
  set (chosen := mkProfile (Some platform) (Some version)).
  unfold onSelectEngineProfile. fold chosen. fold (checked s chosen).
  destruct (checked s chosen) eqn:Hchecked;
    [apply checked_iff in Hchecked; contradiction|].
  unfold setEngineProfile. cbn [selectedEngineProfile].
  destruct (engineProfilesEqual (Some chosen)
              (FormEditor.engineProfile (FormEditor.cached c))) eqn:Heq.
  { destruct (FormEditor.engineProfile (FormEditor.cached c)) as [q|] eqn:Hq;
      [|discriminate].
    apply engineProfilesEqual_eq in Heq. subst q. now elim Hcur. }
  simpl. repeat split.
Qed.

(** X10. After an import the form editor shows its loader no more and always a
    status-bar button with the arrow: without a platform in the schema it
    reads "No platform selected"; with one it reads platform and version,
    and a version that is missing reads "undefined". After a failed import
    it reads "No platform selected". *)
Theorem status_label_after_import (error : option Err)
    (warnings : option (list string)) (c : FormEditor.FormEditor Form)
    (open : bool) :
  let c' := fst (FormEditor.handleImport error warnings c) in
  let schema :=
    FormEditor.form_getSchema (FormEditor.form (FormEditor.cached c)) in
  exists view,
    renderFormEditor c' open = (true, Some view)
    /\ arrow view = true
    /\ label view
       = Some match error, FormEditor.get_executionPlatform schema with
              | None, Some platform =>
                  (platform ++ " "
                   ++ template (FormEditor.get_executionPlatformVersion schema))
                  %string
              | _, _ => "No platform selected"
              end.
Proof.
  cbv zeta. unfold renderFormEditor, render.
  destruct error as [err|]; simpl.
  - eexists. repeat split.
  - destruct (FormEditor.get_executionPlatform _) as [p|]; simpl;
      eexists; repeat split.
Qed.

End OnTheFormEditor.

#[local] Existing Instance Fixture.engine.

Lemma select_and_apply_sets_profile_witness :
  FormEditor.engineProfile
    (FormEditor.cached
       (FormEditor.dispatchPropCalls
          (snd (setEngineProfile None
                  (onSelectEngineProfile "Camunda Cloud" "1.1" (initial None))))
          (Fixture.mounted "plain.form")))
  = Some (mkProfile (Some "Camunda Cloud") (Some "1.1")).
Proof.
  assert (Hsel : selectedEngineProfile (initial None)
                 <> Some (mkProfile (Some "Camunda Cloud") (Some "1.1")))
    by discriminate.
  assert (Hcur : FormEditor.engineProfile
                   (FormEditor.cached (Fixture.mounted "plain.form"))
                 <> Some (mkProfile (Some "Camunda Cloud") (Some "1.1")))
    by discriminate.
  exact (proj1 (proj2 (@select_and_apply_sets_profile _ _ Fixture.engine
                         "Camunda Cloud" "1.1" (initial None)
                         (Fixture.mounted "plain.form") Hsel Hcur))).
Defined.

End SelectionFacts.

(** ** Form editor wrapper: imports from mount to result *)

Module FormEditorLifeFacts.

Import EngineProfile FormEditor FormEditorLife.

Section WithEngine.

Context {Form json : Type} {engine : FormEngine Form json}.

Implicit Types (c : FormEditor Form).

Lemma importSchema_mounted c :
  _isMounted c = true ->
  let error := fst (importResult c) in
  let c' := fst (importSchema c) in
  onImportCalls (snd (importSchema c)) = [(error, None)]
  /\ importing (state c') = false
  /\ form (cached c') = snd (importResult c)
  /\ lastSchema (cached c')
     = match error with Some _ => None | None => Some (xml (props c)) end
  /\ stackIdx (cached c')
     = match error with
       | Some _ => stackIdx (cached c)
       | None => commandStack_stackIdx (snd (importResult c))
       end
  /\ props c' = props c.
Proof.
  intros Hm. cbv zeta. unfold importResult, importSchema, settleImport.
  cbn [setState_importing props cached _isMounted withForm].
  rewrite Hm.
  destruct (JSON_parse (xml (props c))) as [err|j]; [simpl; repeat split|].
  destruct (form_importSchema (form (cached c)) j) as [f' [[err|] w|err]];
    simpl; repeat split.
Qed.

(** An import of a mounted editor with props updates arriving while it is
    in flight, outcome by outcome. *)
Lemma importSchema_during_mounted (updates : list Props) c :
  _isMounted c = true ->
  let error := fst (importResult c) in
  let form' := snd (importResult c) in
  let c' := fst (importSchema_during updates c) in
  onImportCalls (snd (importSchema_during updates c)) = [(error, None)]
  /\ importing (state c') = false
  /\ form (cached c') = form'
  /\ lastSchema (cached c')
     = match error with
       | Some _ => None
       | None => Some (xml (last updates (props c)))
       end
  /\ stackIdx (cached c')
     = match error with
       | Some _ => stackIdx (cached c)
       | None => commandStack_stackIdx form'
       end
  /\ engineProfile (cached c')
     = match error with
       | Some _ => None
       | None =>
           match get_executionPlatform (form_getSchema form') with
           | Some p =>
               Some (mkProfile (Some p)
                       (get_executionPlatformVersion (form_getSchema form')))
           | None => None
           end
       end.
Proof.
  intros Hm. cbv zeta. unfold importResult.
  destruct (JSON_parse (xml (props c))) as [err|j] eqn:Hparse.
  - rewrite (FormEditorFacts.importSchema_during_unparsed updates c err Hparse).
    unfold importSchema, settleImport.
    cbn [setState_importing props cached _isMounted]. rewrite Hparse, Hm.
    simpl. repeat split.
  - destruct (form_importSchema (form (cached c)) j) as [f' settled] eqn:Himp.
    rewrite (FormEditorFacts.importSchema_during_suspended
               updates c j f' settled Hparse Himp).
    unfold importSchema_resume, settleImport. cbn [_isMounted]. rewrite Hm.
    destruct settled as [[err|] w|err]; simpl; repeat split.
    now destruct (get_executionPlatform _).
Qed.

(** X11. An import on a mounted editor, whatever props updates arrive while
    it is in flight, reports to the host exactly once and never with
    warnings, and leaves the [importing] flag cleared. It reports the error
    the import ended with: the error [JSON.parse] threw, the error the
    engine rejected with or the error the engine resolved with; the cached
    schema and engine profile are then [null] and the baseline is kept.
    When the engine resolves without an error it reports no error and the
    cached schema is the xml prop held at that time. With no update in
    between the import is [importSchema] run in one piece. *)
Theorem import_reports_once (updates : list Props) c :
  _isMounted c = true ->
  let calls := onImportCalls (snd (importSchema_during updates c)) in
  let c' := fst (importSchema_during updates c) in
  List.length calls = 1%nat
  /\ importing (state c') = false
  /\ (forall err,
        JSON_parse (xml (props c)) = inl err ->
        calls = [(Some err, None)]
        /\ lastSchema (cached c') = None
        /\ engineProfile (cached c') = None
        /\ stackIdx (cached c') = stackIdx (cached c))
  /\ (forall schemaJSON form' err,
        JSON_parse (xml (props c)) = inr schemaJSON ->
        form_importSchema (form (cached c)) schemaJSON
        = (form', Rejected err) ->
        calls = [(Some err, None)]
        /\ lastSchema (cached c') = None
        /\ engineProfile (cached c') = None
        /\ stackIdx (cached c') = stackIdx (cached c))
  /\ (forall schemaJSON form' err warnings,
        JSON_parse (xml (props c)) = inr schemaJSON ->
        form_importSchema (form (cached c)) schemaJSON
        = (form', Resolved (Some err) warnings) ->
        calls = [(Some err, None)]
        /\ lastSchema (cached c') = None
        /\ engineProfile (cached c') = None
        /\ stackIdx (cached c') = stackIdx (cached c))
  /\ (forall schemaJSON form' warnings,
        JSON_parse (xml (props c)) = inr schemaJSON ->
        form_importSchema (form (cached c)) schemaJSON
        = (form', Resolved None warnings) ->
        calls = [(None, None)]
        /\ lastSchema (cached c') = Some (xml (last updates (props c)))
        /\ stackIdx (cached c') = commandStack_stackIdx form')
  /\ importSchema c = importSchema_during [] c.
Proof.
  intros Hm.
  destruct (importSchema_during_mounted updates c Hm)
    as (Hcalls & Himporting & _ & Hlast & Hidx & Hprofile).
  cbv zeta. rewrite Hcalls, Hlast, Hidx, Hprofile. unfold importResult.
  split; [reflexivity|]. split; [exact Himporting|].
  split; [intros err Hparse; rewrite Hparse; repeat split|].
  split; [intros j f' err Hparse Himp; rewrite Hparse, Himp; repeat split|].
  split; [intros j f' err w Hparse Himp; rewrite Hparse, Himp; repeat split|].
  split; [|symmetry; apply FormEditorFacts.importSchema_during_nil].
  intros j f' w Hparse Himp. rewrite Hparse, Himp. repeat split.
Qed.

(** X12. An import that ends after the editor was unmounted is dropped: the
    host is not called, the cached schema, baseline and profile stay, and
    the [importing] flag remains set. *)
Theorem import_after_unmount_dropped c :
  _isMounted c = false ->
  let c' := fst (importSchema c) in
  onImportCalls (snd (importSchema c)) = []
  /\ importing (state c') = true
  /\ lastSchema (cached c') = lastSchema (cached c)
  /\ stackIdx (cached c') = stackIdx (cached c)
  /\ engineProfile (cached c') = engineProfile (cached c).
Proof.
  intros Hm. cbv zeta. unfold importSchema, settleImport.
  cbn [setState_importing props cached _isMounted withForm].
  rewrite Hm.
  destruct (JSON_parse (xml (props c))) as [err|j]; [simpl; repeat split|].
  destruct (form_importSchema (form (cached c)) j) as [f' [e w|err]];
    simpl; repeat split.
Qed.

(** X13. Mounting an editor constructed on a fresh cached state always starts
    an import of the xml prop, which reports to the host once. *)
Theorem fresh_mount_imports (p : Props) :
  let c := construct p createCachedState in
  invokesImportSchema (snd (componentDidMount c)) = true
  /\ List.length (onImportCalls (snd (componentDidMount c))) = 1%nat
  /\ _isMounted (fst (componentDidMount c)) = true
  /\ importing (state (fst (componentDidMount c))) = false.
Proof.
  cbv zeta. unfold componentDidMount, checkImport.
  set (c := mkFormEditor _ _ true _).
  assert (Hneed : isImportNeeded None c = true) by reflexivity.
  rewrite Hneed. cbn [negb].
  destruct (importSchema_mounted c eq_refl)
    as (Hcalls & Himp & _ & _ & _ & _).
  split; [|split; [now rewrite Hcalls | split; [|exact Himp]]].
  - unfold importSchema.
    destruct (JSON_parse _); [destruct (settleImport _ _ _); reflexivity|].
    destruct (form_importSchema _ _) as [f' [e w|err]];
      destruct (settleImport _ _ _); reflexivity.
  - unfold importSchema, settleImport.
    cbn [setState_importing props cached _isMounted withForm]. subst c.
    cbn [_isMounted].
    destruct (JSON_parse _) as [err|j]; [reflexivity|].
    destruct (form_importSchema _ _) as [f' [[e|] w|err]]; reflexivity.
Qed.

(** X14. After an import that succeeded on a mounted editor [getXML]
    returns, without serializing the form, the xml prop the editor held when
    the result was handled: the imported document as it was handed in when
    no props update changed the prop while the import was in flight, and
    otherwise the document handed in last, while the form holds the
    document imported. *)
Theorem import_then_getXML (updates : list Props) c (schemaJSON : json)
    (form' : Form) (warnings : option (list string)) :
  _isMounted c = true ->
  JSON_parse (xml (props c)) = inr schemaJSON ->
  form_importSchema (form (cached c)) schemaJSON
  = (form', Resolved None warnings) ->
  let c' := fst (importSchema_during updates c) in
  getXML c' = (xml (last updates (props c)), c', [])
  /\ (Forall (fun newProps => xml newProps = xml (props c)) updates ->
      fst (fst (getXML c')) = xml (props c))
  /\ form (cached c') = form'.
Proof.
  intros Hm Hparse Himp. cbv zeta.
  destruct (importSchema_during_mounted updates c Hm)
    as (_ & _ & Hform & Hlast & Hidx & _).
  unfold importResult in *. rewrite Hparse, Himp in *. simpl in *.
  assert (Hget : getXML (fst (importSchema_during updates c))
                 = (xml (last updates (props c)),
                    fst (importSchema_during updates c), [])).
  { unfold getXML, isDirty. rewrite Hform, Hidx, Hlast, Z.eqb_refl.
    cbn [negb]. f_equal. f_equal.
    unfold or_string. destruct (truthy_string _) eqn:Ht; [reflexivity|].
    rewrite (FormEditorFacts.importSchema_during_suspended
               updates c schemaJSON form' _ Hparse Himp).
    unfold importSchema_resume, settleImport. cbn [_isMounted].
    now rewrite Hm. }
  split; [exact Hget|]. split; [|exact Hform].
  intros Hsame. rewrite Hget. cbn [fst].
  destruct updates as [|newProps r] using rev_ind; [reflexivity|].
  rewrite last_last. apply Forall_app in Hsame.
  destruct Hsame as (_ & Hsame). now inversion Hsame.
Qed.

(** X15. A second [getXML] in a row never serializes the form and leaves the
    component alone; it returns the same document as the first, unless the
    first serialized the form to the empty string. *)
Theorem getXML_twice c :
  let first := getXML c in
  let c1 := snd (fst first) in
  snd (getXML c1) = []
  /\ snd (fst (getXML c1)) = c1
  /\ (isDirty c = false \/ fst (fst first) <> "" ->
      fst (fst (getXML c1)) = fst (fst first)).
Proof.
  cbv zeta.
  assert (Hclean : isDirty (snd (fst (getXML c))) = false).
  { unfold getXML. destruct (isDirty c) eqn:Hd; simpl; [|exact Hd].
    unfold isDirty. simpl. now rewrite Z.eqb_refl. }
  assert (Hsecond : forall c1, isDirty c1 = false ->
             getXML c1
             = (or_string (lastSchema (cached c1)) (xml (props c1)), c1, [])).
  { intros c1 Hc1. unfold getXML. now rewrite Hc1. }
  rewrite (Hsecond _ Hclean). cbn [fst snd]. repeat split.
  unfold getXML. destruct (isDirty c) eqn:Hd; simpl; [|reflexivity].
  intros [Hfalse | Hne]; [discriminate|].
  unfold truthy_string. apply String.eqb_neq in Hne. now rewrite Hne.
Qed.

End WithEngine.

#[local] Existing Instance Fixture.engine.

Lemma import_reports_once_witness :
  onImportCalls
    (snd (importSchema_during [FixtureMore.cloudProps]
            (Fixture.mounted "broken.form")))
  = [(Some Fixture.importError, None)]
  /\ lastSchema
       (cached (fst (importSchema_during [FixtureMore.cloudProps]
                       (Fixture.mounted "broken.form"))))
     = None.
Proof.
  destruct (import_reports_once (engine := Fixture.engine)
              [FixtureMore.cloudProps] (Fixture.mounted "broken.form")
              eq_refl)
    as (_ & _ & _ & Hrejected & _).
  destruct (Hrejected Fixture.brokenJson
              (Fixture.mkForm Fixture.emptyJson (-1)) Fixture.importError
              (@eq_refl _ (inr Fixture.brokenJson))
              (@eq_refl _ (Fixture.mkForm Fixture.emptyJson (-1),
                           Rejected Fixture.importError)))
    as (Hcalls & Hlast & _).
  split; [exact Hcalls | exact Hlast].
Defined.

Lemma import_after_unmount_dropped_witness :
  onImportCalls
    (snd (importSchema (componentWillUnmount (Fixture.mounted "cloud.form"))))
  = [].
Proof.
  exact (proj1 (import_after_unmount_dropped
                  (componentWillUnmount (Fixture.mounted "cloud.form"))
                  eq_refl)).
Defined.

Lemma import_then_getXML_witness :
  let c' :=
    fst (importSchema_during [FixtureMore.cloudProps]
           (Fixture.mounted "plain.form")) in
  fst (fst (getXML c')) = "cloud.form"
  /\ form (cached c') = Fixture.mkForm Fixture.plainJson (-1).
Proof.
  destruct (import_then_getXML (engine := Fixture.engine)
              [FixtureMore.cloudProps] (Fixture.mounted "plain.form")
              Fixture.plainJson (Fixture.mkForm Fixture.plainJson (-1))
              (Some []) eq_refl (@eq_refl _ (inr Fixture.plainJson))
              (@eq_refl _ (Fixture.mkForm Fixture.plainJson (-1),
                           Resolved None (Some []))))
    as (Hget & _ & Hform).
  cbv zeta. rewrite Hget, Hform. split; reflexivity.
Defined.

End FormEditorLifeFacts.

(** ** Multi-sheet tab container: sheets, switch and document cache *)

Module MultiSheetTabMoreFacts.

Import MultiSheetTab MultiSheetTabMore MultiSheetTabFacts.

Lemma ref_spreadMap (f : Sheet -> Sheet) (l : list SheetObj) (next : nat) :
  map ref (spreadMap f l next) = seq next (List.length l).
Proof.
  revert next. induction l as [|x l IH]; intros next; simpl; [reflexivity|].
  now rewrite IH.
Qed.

Lemma length_spreadMap (f : Sheet -> Sheet) (l : list SheetObj) (next : nat) :
  List.length (spreadMap f l next) = List.length l.
Proof.
  rewrite <- (length_map ref), ref_spreadMap. apply length_seq.
Qed.

Lemma same_provider_refl (p : Provider) : same_provider p p = true.
Proof. apply Nat.eqb_refl. Qed.

Lemma Permutation_filter {A : Type} (f : A -> bool) (l l' : list A) :
  Permutation l l' -> Permutation (filter f l) (filter f l').
Proof.
  induction 1 as [|x l l' _ IH|x y l|l l' l'' _ IH1 _ IH2]; simpl.
  - constructor.
  - destruct (f x); [now constructor | exact IH].
  - destruct (f x), (f y); try reflexivity. apply perm_swap.
  - now transitivity (filter f l').
Qed.

Lemma filter_comm {A : Type} (f g : A -> bool) (l : list A) :
  filter f (filter g l) = filter g (filter f l).
Proof.
  induction l as [|x l IH]; simpl; [reflexivity|].
  destruct (f x) eqn:Hf, (g x) eqn:Hg; simpl; rewrite ?Hf, ?Hg, IH;
    reflexivity.
Qed.

Lemma orderIs_own (s : Sheet) (k : Z) :
  order s = Some k -> orderIs k s = true.
Proof. intros Hk. unfold orderIs. rewrite Hk. apply Z.eqb_refl. Qed.

Lemma orderIs_order (s : Sheet) (k : Z) :
  orderIs k s = true -> order s = Some k.
Proof.
  unfold orderIs. destruct (order s) as [z|]; [|discriminate].
  intros Hz. apply Z.eqb_eq in Hz. now subst.
Qed.

(** The head of a sorted list has the least order among the sheets that
    occur in it. *)
Lemma sorted_head_least (x y : Sheet) (r : list Sheet) (kx ky : Z) :
  StronglySorted le_order_fields (x :: r) ->
  order x = Some kx -> order y = Some ky -> In y (x :: r) -> kx <= ky.
Proof.
  intros Hs Hx Hy [<- | Hin].
  - rewrite Hx in Hy. injection Hy as <-. lia.
  - inversion Hs as [|? ? _ Hall]; subst.
    apply (proj1 (Forall_forall _ _) Hall) in Hin.
    unfold le_order_fields in Hin. now rewrite Hx, Hy in Hin.
Qed.

(** Two sorted lists of sheets that agree, order by order, on the sequence
    of sheets of that order are the same list: a stable sort has one
    result. *)
Lemma stable_sorted_unique (l1 l2 : list Sheet) :
  Forall (fun s => order s <> None) l1 ->
  Forall (fun s => order s <> None) l2 ->
  StronglySorted le_order_fields l1 ->
  StronglySorted le_order_fields l2 ->
  (forall k, filter (orderIs k) l1 = filter (orderIs k) l2) ->
  l1 = l2.
Proof.
  revert l2. induction l1 as [|x r1 IH]; intros l2 Ho1 Ho2 Hs1 Hs2 Hf.
  - destruct l2 as [|y r2]; [reflexivity|].
    inversion Ho2 as [|? ? Hy _]; subst.
    destruct (order y) as [ky|] eqn:Hky; [|congruence].
    specialize (Hf ky). simpl in Hf.
    now rewrite (orderIs_own y ky Hky) in Hf.
  - inversion Ho1 as [|? ? Hx Ho1']; subst.
    destruct (order x) as [kx|] eqn:Hkx; [|congruence].
    destruct l2 as [|y r2].
    { specialize (Hf kx). simpl in Hf.
      now rewrite (orderIs_own x kx Hkx) in Hf. }
    inversion Ho2 as [|? ? Hy Ho2']; subst.
    destruct (order y) as [ky|] eqn:Hky; [|congruence].
    assert (Hle1 : kx <= ky).
    { apply (sorted_head_least x y r1 kx ky Hs1 Hkx Hky).
      assert (Hin : In y (filter (orderIs ky) (x :: r1))).
      { rewrite (Hf ky). apply filter_In. split; [now left|].
        now apply orderIs_own. }
      now apply filter_In in Hin. }
    assert (Hle2 : ky <= kx).
    { apply (sorted_head_least y x r2 ky kx Hs2 Hky Hkx).
      assert (Hin : In x (filter (orderIs kx) (y :: r2))).
      { rewrite <- (Hf kx). apply filter_In. split; [now left|].
        now apply orderIs_own. }
      now apply filter_In in Hin. }
    assert (ky = kx) by lia. subst ky.
    assert (Hxy : x = y).
    { specialize (Hf kx). simpl in Hf.
      rewrite (orderIs_own x kx Hkx), (orderIs_own y kx Hky) in Hf.
      now injection Hf. }
    subst y. f_equal.
    inversion Hs1; inversion Hs2; subst.
    apply IH; trivial.
    intros k. specialize (Hf k). simpl in Hf.
    destruct (orderIs k x); [now injection Hf | exact Hf].
Qed.

Lemma sorted_fields (l : list SheetObj) :
  StronglySorted le_order l -> StronglySorted le_order_fields (map fields l).
Proof.
  induction 1 as [|x l _ IH Hall]; simpl; constructor; [exact IH|].
  apply Forall_map. exact Hall.
Qed.

Lemma map_defaultOrder_ordered (l : list Sheet) :
  Forall (fun s => order s <> None) l -> map defaultOrder l = l.
Proof.
  induction 1 as [|s l Hs _ IH]; simpl; [reflexivity|].
  now rewrite IH, (defaultOrder_unaltered s Hs).
Qed.

Section WithEditor.

Context {E O R : Type} {editorClass : Editor E}
  {actions : EditorActions E O R}.

Implicit Types (t : Tab E) (a sheet : SheetObj).

(** *** Default sheets *)

Lemma getDefaultSheets_spec t :
  let l := fst (getDefaultSheets t) in
  map (fun s => provider (fields s)) l = providers (props t)
  /\ map ref l = seq (nextRef t) (List.length (providers (props t)))
  /\ Forall (fun s =>
               id (fields s) = provider_type (provider (fields s))
               /\ type (fields s) = provider_type (provider (fields s))
               /\ name (fields s) = defaultName (provider (fields s))
               /\ isDefault (fields s) = true
               /\ order (fields s) = None) l
  /\ snd (getDefaultSheets t)
     = allocated (List.length (providers (props t))) t.
Proof.
  unfold getDefaultSheets. cbn [fst snd].
  generalize (nextRef t) as next.
  induction (providers (props t)) as [|p ps IH]; intros next.
  - repeat split. constructor.
  - destruct (IH (S next)) as (Hprov & Href & Hall & _).
    cbn [map List.length seq]. rewrite Hprov, Href.
    repeat split. constructor; [repeat split | exact Hall].
Qed.

(** X16. A tab constructed without cached sheets caches one default sheet per
    provider, in the order of the providers, named and typed after its
    provider and without an order; the sheets are distinct objects and the
    first one is the active sheet. A tab that has sheets cached is left as
    it is. *)
Theorem construct_default_sheets t :
  (sheets (cached t) = None ->
   exists l,
     sheets (cached (construct t)) = Some l
     /\ map (fun s => provider (fields s)) l = providers (props t)
     /\ Forall (fun s =>
                  id (fields s) = provider_type (provider (fields s))
                  /\ type (fields s) = provider_type (provider (fields s))
                  /\ name (fields s) = defaultName (provider (fields s))
                  /\ isDefault (fields s) = true
                  /\ order (fields s) = None) l
     /\ NoDup (map ref l)
     /\ activeSheet (cached (construct t)) = hd_error l
     /\ (providers (props t) <> [] -> activeListed (construct t)))
  /\ (sheets (cached t) <> None -> construct t = t).
Proof.
  split.
  - intros Hnone. unfold construct. rewrite Hnone.
    destruct (getDefaultSheets_spec t) as (Hprov & Href & Hall & Hsnd).
    destruct (getDefaultSheets t) as [l t0]. cbn [fst snd] in *.
    exists l. cbn [setCached cached sheets activeSheet patch_sheets
                   patch_activeSheet merge].
    split; [reflexivity|]. split; [exact Hprov|]. split; [exact Hall|].
    split; [rewrite Href; apply seq_NoDup|]. split; [reflexivity|].
    intros Hne. destruct l as [|x l].
    + simpl in Hprov. now rewrite <- Hprov in Hne.
    + exists x, (x :: l). repeat split. now left.
  - intros Hsome. unfold construct.
    destruct (sheets (cached t)); [reflexivity | now elim Hsome].
Qed.

(** *** Sheet reconciliation *)

Lemma sheetsChanged_run (newSheets : list SheetObj)
    (newActiveSheet : option SheetObj) t a :
  activeSheet (cached t) = Some a ->
  let R := reconciled newSheets a t in
  exists next,
    sheetsChanged newSheets newActiveSheet t
    = inr (mkTab (props t)
                 (mkCached (Some R)
                    match newActiveSheet with
                    | Some n =>
                        find (fun s => String.eqb (id (fields s))
                                                  (id (fields n))) R
                    | None => Some a
                    end
                    (lastXML (cached t)))
                 (editor t) next)
    /\ (nextRef t + List.length newSheets <= next)%nat
    /\ Forall (fun s => (nextRef t + List.length newSheets <= ref s < next)%nat) R
    /\ NoDup (map ref R).
Proof.
  intros Ha. cbv zeta. unfold sheetsChanged, reconciled. rewrite Ha.
  cbn [allocated nextRef setCached cached props editor patch_sheets
       patch_activeSheet patch_lastXML merge].
  set (kept := _ ++ spreadMap _ newSheets _).
  set (base := (nextRef t + List.length newSheets)%nat).
  eexists. split; [reflexivity|].
  assert (Hrefs : Permutation
                    (map ref (sort compareFn (spreadMap defaultOrder kept base)))
                    (seq base (List.length kept))).
  { rewrite <- ref_spreadMap with (f := defaultOrder).
    apply Permutation_map, sort_perm. }
  cbn [allocated nextRef].
  split; [unfold base; lia|]. split.
  - apply Forall_forall. intros s Hin.
    apply (in_map ref) in Hin.
    apply (Permutation_in _ Hrefs), in_seq in Hin. unfold base in *. lia.
  - eapply Permutation_NoDup; [symmetry; exact Hrefs | apply seq_NoDup].
Qed.

Lemma reconciled_spread (newSheets : list SheetObj) t a :
  let prior := match sheets (cached t) with Some l => l | None => [] end in
  let p := provider (fields a) in
  let others :=
    filter (fun s => negb (same_provider (provider (fields s)) p)) prior in
  exists spread,
    reconciled newSheets a t = sort compareFn spread
    /\ Forall ordered spread
    /\ map fields spread
       = map defaultOrder (map fields others)
         ++ map (fun s => defaultOrder (wire p (fields s))) newSheets.
Proof.
  cbv zeta. unfold reconciled. eexists. split; [reflexivity|].
  split; [apply spreadMap_defaultOrder_ordered|].
  now rewrite fields_spreadMap, map_app, fields_spreadMap, map_app, !map_map.
Qed.

Lemma provider_defaultOrder (s : Sheet) : provider (defaultOrder s) = provider s.
Proof. reflexivity. Qed.

Lemma filter_all {A : Type} (f : A -> bool) (l : list A) :
  (forall x, In x l -> f x = true) -> filter f l = l.
Proof.
  induction l as [|x l IH]; intros Hall; simpl; [reflexivity|].
  rewrite (Hall x (or_introl eq_refl)). f_equal. apply IH.
  intros y Hy. apply Hall. now right.
Qed.

Lemma filter_nothing {A : Type} (f : A -> bool) (l : list A) :
  (forall x, In x l -> f x = false) -> filter f l = [].
Proof.
  induction l as [|x l IH]; intros Hall; simpl; [reflexivity|].
  rewrite (Hall x (or_introl eq_refl)). apply IH.
  intros y Hy. apply Hall. now right.
Qed.

(** The two halves of what is spread, seen by provider: the kept sheets
    are not of provider [p], the wired ones all are. *)
Lemma split_by_provider (p : Provider) (others : list SheetObj)
    (newSheets : list SheetObj) :
  Forall (fun s => same_provider (provider (fields s)) p = false) others ->
  let keptF := map defaultOrder (map fields others) in
  let wiredF := map (fun s => defaultOrder (wire p (fields s))) newSheets in
  filter (ofProvider p) (keptF ++ wiredF) = wiredF
  /\ filter (fun s => negb (ofProvider p s)) (keptF ++ wiredF) = keptF.
Proof.
  intros Hothers. cbv zeta. rewrite !filter_app.
  assert (Hkept : forall x, In x (map defaultOrder (map fields others)) ->
                            ofProvider p x = false).
  { intros x Hx. rewrite map_map in Hx. apply in_map_iff in Hx.
    destruct Hx as (s & <- & Hs). unfold ofProvider.
    rewrite provider_defaultOrder.
    now apply (proj1 (Forall_forall _ _) Hothers). }
  assert (Hwired : forall x,
             In x (map (fun s => defaultOrder (wire p (fields s))) newSheets) ->
             ofProvider p x = true).
  { intros x Hx. apply in_map_iff in Hx. destruct Hx as (s & <- & _).
    apply same_provider_refl. }
  split.
  - rewrite (filter_nothing _ _ Hkept), (filter_all _ _ Hwired). reflexivity.
  - rewrite (filter_all (fun s => negb (ofProvider p s))
                        (map defaultOrder (map fields others))),
            (filter_nothing (fun s => negb (ofProvider p s))
               (map (fun s => defaultOrder (wire p (fields s))) newSheets)).
    + apply app_nil_r.
    + intros x Hx. now rewrite (Hwired x Hx).
    + intros x Hx. now rewrite (Hkept x Hx).
Qed.

Lemma others_not_of_provider (p : Provider) (prior : list SheetObj) :
  Forall (fun s => same_provider (provider (fields s)) p = false)
         (filter (fun s => negb (same_provider (provider (fields s)) p)) prior).
Proof.
  apply Forall_forall. intros s Hs. apply filter_In in Hs.
  now apply negb_true_iff.
Qed.

(** X17. A report replaces the sheets of the active sheet's provider by the
    reported ones and by nothing else: of that provider the result holds
    exactly the reported sheets (wired, order defaulted), of the other
    providers exactly the sheets cached before (order defaulted). *)
Theorem report_replaces_provider_sheets (newSheets : list SheetObj)
    (newActiveSheet : option SheetObj) t a :
  activeSheet (cached t) = Some a ->
  let prior := match sheets (cached t) with Some l => l | None => [] end in
  let p := provider (fields a) in
  exists t' l,
    sheetsChanged newSheets newActiveSheet t = inr t'
    /\ sheets (cached t') = Some l
    /\ Permutation (filter (ofProvider p) (map fields l))
                   (map (fun s => defaultOrder (wire p (fields s))) newSheets)
    /\ Permutation
         (filter (fun s => negb (ofProvider p s)) (map fields l))
         (map defaultOrder
              (filter (fun s => negb (ofProvider p s)) (map fields prior)))
    /\ List.length (filter (ofProvider p) (map fields l))
       = List.length newSheets.
Proof.
  intros Ha. cbv zeta.
  destruct (sheetsChanged_run newSheets newActiveSheet t a Ha)
    as (next & Hrun & _).
  destruct (reconciled_spread newSheets t a) as (spread & HR & _ & Hfields).
  destruct (split_by_provider (provider (fields a)) _ newSheets
              (others_not_of_provider (provider (fields a))
                 match sheets (cached t) with Some l => l | None => [] end))
    as (Hwired & Hkept).
  assert (Hperm : Permutation (map fields (reconciled newSheets a t))
                              (map fields spread)).
  { rewrite HR. apply Permutation_map, sort_perm. }
  rewrite Hfields in Hperm.
  assert (Hp : Permutation
                 (filter (ofProvider (provider (fields a)))
                         (map fields (reconciled newSheets a t)))
                 (map (fun s => defaultOrder
                                  (wire (provider (fields a)) (fields s)))
                      newSheets)).
  { rewrite <- Hwired. now apply Permutation_filter. }
  eexists. exists (reconciled newSheets a t).
  split; [exact Hrun|]. split; [reflexivity|]. split; [exact Hp|]. split.
  - eapply perm_trans;
      [apply (Permutation_filter
                (fun s => negb (ofProvider (provider (fields a)) s))), Hperm|].
    rewrite Hkept.
    rewrite (filter_map_fields
               (fun s => negb (ofProvider (provider (fields a)) s))).
    reflexivity.
  - rewrite (Permutation_length Hp). apply length_map.
Qed.

(** X18. A report caches newly created sheet objects only. When it names no new
    active sheet, the active sheet stays the object it was, which is none
    of the cached sheets any more: the tab's active sheet is no longer
    listed, and the first sheet that is not the active object is simply the
    first sheet. *)
Theorem report_caches_new_objects (newSheets : list SheetObj) t a :
  activeSheet (cached t) = Some a ->
  (ref a < nextRef t)%nat ->
  exists t' l,
    sheetsChanged newSheets None t = inr t'
    /\ sheets (cached t') = Some l
    /\ activeSheet (cached t') = Some a
    /\ NoDup (map ref l)
    /\ (forall s, In s l -> same_sheet s a = false)
    /\ ~ activeListed t'
    /\ find (fun s => negb (same_sheet s a)) l = hd_error l.
Proof.
  intros Ha Hold.
  destruct (sheetsChanged_run newSheets None t a Ha)
    as (next & Hrun & _ & Hrefs & Hnodup).
  assert (Hnew : forall s, In s (reconciled newSheets a t) ->
                           same_sheet s a = false).
  { intros s Hin. apply (proj1 (Forall_forall _ _) Hrefs) in Hin.
    apply Nat.eqb_neq. lia. }
  eexists. exists (reconciled newSheets a t).
  split; [exact Hrun|]. split; [reflexivity|]. split; [reflexivity|].
  split; [exact Hnodup|]. split; [exact Hnew|]. split.
  - intros (a' & l & Hact & Hsheets & Hin). simpl in Hact, Hsheets.
    injection Hact as <-. injection Hsheets as <-.
    apply Hnew in Hin. unfold same_sheet in Hin.
    now rewrite Nat.eqb_refl in Hin.
  - destruct (reconciled newSheets a t) as [|x l]; [reflexivity|].
    simpl. now rewrite (Hnew x (or_introl eq_refl)).
Qed.

(** X19. A report that names a new active sheet whose id no reconciled sheet
    has leaves the tab without a cached active sheet. Rendering falls back
    to the first sheet, but every later report throws on reading the
    provider of the active sheet, and so does every sheet switch. *)
Theorem unknown_active_sheet_blocks_reports (newSheets : list SheetObj)
    (n : SheetObj) t a :
  activeSheet (cached t) = Some a ->
  (forall s, In s (reconciled newSheets a t) ->
             id (fields s) <> id (fields n)) ->
  exists t',
    sheetsChanged newSheets (Some n) t = inr t'
    /\ activeSheet (cached t') = None
    /\ renderedActiveSheet t' = hd_error (reconciled newSheets a t)
    /\ (forall newSheets' newActiveSheet',
           sheetsChanged newSheets' newActiveSheet' t' = inl typeError)
    /\ (forall sheet, switchSheet sheet t' = (t', [], Failed typeError)).
Proof.
  intros Ha Hnone.
  destruct (sheetsChanged_run newSheets (Some n) t a Ha)
    as (next & Hrun & _).
  assert (Hfind : find (fun s => String.eqb (id (fields s)) (id (fields n)))
                       (reconciled newSheets a t) = None).
  { destruct (find _ _) as [s|] eqn:Hf; [|reflexivity].
    apply find_some in Hf. destruct Hf as (Hin & Hid).
    apply String.eqb_eq in Hid. now apply Hnone in Hin. }
  rewrite Hfind in Hrun.
  eexists. split; [exact Hrun|]. repeat split.
Qed.

Lemma reconciled_sorted_stable (newSheets : list SheetObj) t a :
  let prior := match sheets (cached t) with Some l => l | None => [] end in
  let p := provider (fields a) in
  let others :=
    filter (fun s => negb (same_provider (provider (fields s)) p)) prior in
  let F := map fields (reconciled newSheets a t) in
  StronglySorted le_order_fields F
  /\ Forall (fun s => order s <> None) F
  /\ (forall k,
         filter (orderIs k) F
         = filter (orderIs k)
             (map defaultOrder (map fields others)
              ++ map (fun s => defaultOrder (wire p (fields s))) newSheets)).
Proof.
  cbv zeta.
  destruct (reconciled_spread newSheets t a) as (spread & HR & Hord & Hfields).
  rewrite HR. split; [|split].
  - apply sorted_fields, sort_sorted, Hord.
  - apply Forall_map.
    eapply Permutation_Forall; [symmetry; apply sort_perm | exact Hord].
  - intros k. rewrite <- Hfields, !filter_map_fields. now rewrite sort_stable.
Qed.

(** X20. Reporting the same sheets again changes nothing in what the sheets
    are: the second report caches sheets with the same properties, in the
    same sequence, as the first (as new objects). *)
Theorem report_twice_same_sheets (newSheets : list SheetObj) t a :
  activeSheet (cached t) = Some a ->
  exists t1 t2 l1 l2,
    sheetsChanged newSheets None t = inr t1
    /\ sheetsChanged newSheets None t1 = inr t2
    /\ sheets (cached t1) = Some l1
    /\ sheets (cached t2) = Some l2
    /\ map fields l2 = map fields l1
    /\ activeSheet (cached t2) = Some a.
Proof.
  intros Ha.
  destruct (sheetsChanged_run newSheets None t a Ha) as (next & Hrun & _).
  set (t1 := mkTab _ _ _ next) in Hrun.
  assert (Ha1 : activeSheet (cached t1) = Some a) by reflexivity.
  destruct (sheetsChanged_run newSheets None t1 a Ha1) as (next2 & Hrun2 & _).
  eexists. eexists. exists (reconciled newSheets a t).
  exists (reconciled newSheets a t1).
  split; [exact Hrun|]. split; [exact Hrun2|].
  split; [reflexivity|]. split; [reflexivity|]. split; [|reflexivity].
  destruct (reconciled_sorted_stable newSheets t a) as (Hs1 & Ho1 & Hf1).
  destruct (reconciled_sorted_stable newSheets t1 a) as (Hs2 & Ho2 & Hf2).
  apply stable_sorted_unique; trivial.
  intros k. rewrite Hf1, Hf2, !filter_app. f_equal.
  (* the sheets kept by the second report are those kept by the first *)
  set (p := provider (fields a)).
  set (others := filter _ match sheets (cached t) with
                          | Some l => l
                          | None => []
                          end).
  change (match sheets (cached t1) with Some l => l | None => [] end)
    with (reconciled newSheets a t).
  rewrite <- (filter_map_fields (fun s => negb (same_provider (provider s) p))).
  rewrite map_defaultOrder_ordered.
  2:{ apply Forall_forall. intros s Hs. apply filter_In in Hs.
      now apply (proj1 (Forall_forall _ _) Ho1). }
  rewrite filter_comm, Hf1, <- filter_comm.
  destruct (split_by_provider p others newSheets
              (others_not_of_provider p _)) as (_ & Hkept).
  f_equal. exact Hkept.
Qed.

(** *** Import results handed to the tab *)

Lemma surfacedWarnings_app (l r : list MultiSheetTab.Call) :
  surfacedWarnings (l ++ r) = surfacedWarnings l ++ surfacedWarnings r.
Proof.
  induction l as [|c l IH]; simpl; [reflexivity|].
  destruct c; simpl; now rewrite IH.
Qed.

Lemma surfacedWarnings_map (ws : list string) :
  surfacedWarnings (map OnWarning ws) = ws.
Proof. induction ws as [|w ws IH]; simpl; [reflexivity | now rewrite IH]. Qed.

Lemma openFallback_spec t :
  let l := renderedSheets t in
  let t' := fst (openFallback t) in
  surfacedWarnings (snd (openFallback t)) = []
  /\ lastXML (cached t') = lastXML (cached t)
  /\ sheets (cached t') = sheets (cached t)
  /\ activeSheet (cached t')
     = match find (fun s => isFallback (provider (fields s))) l with
       | Some f => Some f
       | None => activeSheet (cached t)
       end
  /\ (sheets (cached t) <> None ->
      find (fun s => isFallback (provider (fields s))) l = None ->
      openFallback t = (t, [])).
Proof.
  cbv zeta. unfold openFallback, renderedSheets.
  destruct (sheets (cached t)) as [l|] eqn:Hs.
  - destruct (find _ l) as [f|]; simpl; rewrite ?Hs; repeat split;
      try reflexivity; intros _ Hf; discriminate Hf.
  - destruct (getDefaultSheets_spec t) as (_ & _ & _ & Hsnd).
    destruct (getDefaultSheets t) as [l t0]. cbn [fst snd] in *. subst t0.
    destruct (find _ l) as [f|]; simpl; rewrite ?Hs; repeat split;
      try reflexivity; intros Hne; now elim Hne.
Qed.

Lemma handleImport_calls (error : option Err)
    (warnings : option (list string)) t :
  let ws := match warnings with Some ws => ws | None => [] end in
  snd (handleImport error warnings t)
  = map OnWarning ws
    ++ match error, ws with
       | None, _ :: _ => [OnAction (Display_notification (List.length ws))]
       | _, _ => []
       end
    ++ match error with
       | Some e =>
           snd (openFallback t) ++ [OnAction (Show_dialog e); OnError e]
       | None => []
       end.
Proof.
  cbv zeta. unfold handleImport.
  destruct (openFallback t) as [t' fb]. cbn [snd].
  destruct error as [e|], warnings as [[|w ws]|]; cbn [snd map app];
    rewrite ?app_nil_r, <- ?app_assoc; reflexivity.
Qed.

Lemma openFallback_calls t :
  Forall (fun c => match c with SetCached _ => True | _ => False end)
         (snd (openFallback t)).
Proof.
  unfold openFallback.
  destruct (match sheets (cached t) with
            | Some l => (l, t)
            | None => getDefaultSheets t
            end) as [l t0].
  destruct (find _ l); simpl; repeat constructor.
Qed.

(** X21. The tab hands every warning of an import result to [onWarning], in
    order, with or without an error; it shows the warnings notification
    exactly when there are warnings and no error; and on an error it ends
    with the error dialog followed by [onError], neither of which occurs
    before. A result with neither error nor warnings makes no call and
    leaves the tab as it is. *)
Theorem tab_import_forwards_warnings (error : option Err)
    (warnings : option (list string)) t :
  let calls := snd (handleImport error warnings t) in
  let ws := match warnings with Some ws => ws | None => [] end in
  surfacedWarnings calls = ws
  /\ (forall n, In (OnAction (Display_notification n)) calls <->
                error = None /\ ws <> [] /\ n = List.length ws)
  /\ (error = None -> fst (handleImport error warnings t) = t)
  /\ (error = None -> ws = [] -> calls = [])
  /\ (forall e, error = Some e ->
        exists before,
          calls = before ++ [OnAction (Show_dialog e); OnError e]
          /\ Forall quietCall before).
Proof.
  cbv zeta. rewrite handleImport_calls.
  set (ws := match warnings with Some ws => ws | None => [] end).
  destruct (openFallback_spec t) as (Hquiet & _).
  pose proof (openFallback_calls t) as Hset.
  assert (Hfb : Forall quietCall (snd (openFallback t))).
  { eapply Forall_impl; [|exact Hset]. now intros []. }
  assert (Hwarn : Forall quietCall (map OnWarning ws)).
  { apply Forall_map, Forall_forall. now intros. }
  split; [|split; [|split; [|split]]].
  - rewrite !surfacedWarnings_app, surfacedWarnings_map.
    destruct error as [e|], ws as [|w r]; cbn [surfacedWarnings];
      rewrite ?surfacedWarnings_app, ?Hquiet, ?app_nil_r; reflexivity.
  - intros n. rewrite !in_app_iff. split.
    + intros [Hin|[Hin|Hin]].
      * apply in_map_iff in Hin. destruct Hin as (? & ? & _). discriminate.
      * destruct error as [e|], ws as [|w r]; try (now elim Hin).
        destruct Hin as [[= <-]|[]]. repeat split. discriminate.
      * destruct error as [e|]; [|now elim Hin].
        apply in_app_iff in Hin. destruct Hin as [Hin|Hin].
        -- apply (proj1 (Forall_forall _ _) Hset) in Hin. now elim Hin.
        -- simpl in Hin. intuition discriminate.
    + intros (-> & Hne & ->). right. left.
      destruct ws as [|w r]; [now elim Hne | now left].
  - intros ->. unfold handleImport. reflexivity.
  - intros -> Hws. rewrite Hws. reflexivity.
  - intros e ->. exists (map OnWarning ws ++ snd (openFallback t)). split.
    + destruct ws; cbn [app]; now rewrite <- !app_assoc.
    + apply Forall_app. split; [exact Hwarn | exact Hfb].
Qed.

(** X22. After an import error the tab shows the fallback: the active sheet
    becomes the first cached sheet of a fallback provider. Without such a
    sheet the tab stays as it is. The sheets and the cached document are
    not touched. *)
Theorem import_error_opens_fallback (e : Err)
    (warnings : option (list string)) t (l : list SheetObj) :
  sheets (cached t) = Some l ->
  let t' := fst (handleImport (Some e) warnings t) in
  sheets (cached t') = Some l
  /\ lastXML (cached t') = lastXML (cached t)
  /\ (forall f,
         find (fun s => isFallback (provider (fields s))) l = Some f ->
         activeSheet (cached t') = Some f
         /\ In f l /\ isFallback (provider (fields f)) = true)
  /\ (find (fun s => isFallback (provider (fields s))) l = None -> t' = t).
Proof.
  intros Hs. cbv zeta. unfold handleImport.
  destruct (openFallback_spec t) as (_ & Hxml & Hsheets & Hactive & Hsame).
  unfold renderedSheets in *. rewrite Hs in *.
  destruct (openFallback t) as [t' calls]. cbn [fst snd] in *.
  split; [now rewrite Hsheets|]. split; [exact Hxml|]. split.
  - intros f Hf. rewrite Hf in Hactive. split; [exact Hactive|].
    now apply find_some in Hf.
  - intros Hnone. specialize (Hsame ltac:(discriminate) Hnone). congruence.
Qed.

(** *** The cached document *)

(** X23. A props update that brings a new document makes it the cached one: the
    editor is rendered with it and the tab is not dirty on its own account.
    An update that keeps the document makes no call and leaves the cache as
    it is. The sheets and the active sheet are never touched. *)
Theorem props_update_refreshes_document (newProps : Props) t :
  let t' := fst (updateProps newProps t) in
  (xml newProps <> xml (props t) ->
   lastXML (cached t') = Some (xml newProps)
   /\ renderedXML t' = xml newProps
   /\ isDirty false t' = false)
  /\ (xml newProps = xml (props t) ->
      cached t' = cached t /\ snd (updateProps newProps t) = [])
  /\ sheets (cached t') = sheets (cached t)
  /\ activeSheet (cached t') = activeSheet (cached t)
  /\ props t' = newProps.
Proof.
  cbv zeta. unfold updateProps, componentDidUpdate, isXMLChange.
  cbn [props]. destruct (String.eqb_spec (xml (props t)) (xml newProps))
    as [Heq|Hne]; cbn [negb fst snd].
  - repeat split; congruence.
  - repeat split; try congruence.
    + unfold renderedXML, or_string. simpl. now destruct (truthy_string _).
    + unfold isDirty, isXMLChange. simpl.
      destruct (truthy_string _); simpl; [|reflexivity].
      now rewrite String.eqb_refl.
Qed.

Lemma updateProps_clean (newProps : Props) t :
  lastXML (cached t) = Some (xml newProps)
  \/ xml newProps <> xml (props t) ->
  isDirty false (fst (updateProps newProps t)) = false.
Proof.
  intros Hcase.
  assert (Hlast : lastXML (cached (fst (updateProps newProps t)))
                  = Some (xml newProps)).
  { unfold updateProps, componentDidUpdate, isXMLChange. cbn [props].
    destruct (String.eqb_spec (xml (props t)) (xml newProps)) as [Heq|Hne];
      cbn [negb fst]; [|reflexivity].
    destruct Hcase as [Hl|Hne]; [exact Hl | congruence]. }
  assert (Hprops : props (fst (updateProps newProps t)) = newProps).
  { unfold updateProps, componentDidUpdate. cbn [props].
    now destruct (isXMLChange _ _). }
  unfold isDirty. rewrite Hlast, Hprops. unfold isXMLChange.
  destruct (truthy_string _); simpl; [|reflexivity].
  now rewrite String.eqb_refl.
Qed.

(** X24. Saving caches the document the editor returns and resolves with it;
    once the host hands that document back as the xml prop the tab is not
    dirty on its own account. A save the editor rejects, and every action
    other than save, leave the cache as it is. *)
Theorem save_caches_document (options : option O) t :
  (forall e xml,
      editor_getXML (editor t) = (e, inr xml) ->
      let t' := fst (fst (triggerAction "save" options t)) in
      snd (triggerAction "save" options t) = inr (Saved xml)
      /\ lastXML (cached t') = Some xml
      /\ sheets (cached t') = sheets (cached t)
      /\ activeSheet (cached t') = activeSheet (cached t)
      /\ (forall newProps,
             MultiSheetTab.xml newProps = xml ->
             isDirty false (fst (updateProps newProps t')) = false))
  /\ (forall e err,
         editor_getXML (editor t) = (e, inl err) ->
         snd (triggerAction "save" options t) = inl err
         /\ cached (fst (fst (triggerAction "save" options t))) = cached t)
  /\ (forall action,
         action <> "save" ->
         cached (fst (fst (triggerAction action options t))) = cached t).
Proof.
  split; [|split].
  - intros e xml Hget. cbv zeta. unfold triggerAction. cbn [String.eqb Ascii.eqb Bool.eqb].
    rewrite Hget. cbn [fst snd]. repeat split.
    intros newProps Hxml. apply updateProps_clean. left.
    now rewrite Hxml.
  - intros e err Hget. unfold triggerAction. cbn [String.eqb Ascii.eqb Bool.eqb].
    rewrite Hget. split; reflexivity.
  - intros action Hne. unfold triggerAction.
    apply String.eqb_neq in Hne. rewrite Hne.
    destruct (String.eqb action "export-as").
    + destruct options as [o|]; [|reflexivity].
      now destruct (editor_exportAs _ _).
    + now destruct (editor_triggerAction _ _ _).
Qed.

(** X28. What the tab passes on to the host as dirty flag is set exactly when
    the editor reports dirty, or a non-empty document is cached as
    [lastXML] that is not the string of the xml prop. With no document
    cached the tab passes on the flag of the editor. *)
Theorem tab_reports_dirty (dirty : bool) t :
  exists flag,
    handleChanged dirty t = [OnChanged flag]
    /\ (flag = true <->
        dirty = true
        \/ exists last, lastXML (cached t) = Some last
                        /\ last <> "" /\ last <> xml (props t))
    /\ (lastXML (cached t) = None -> flag = dirty)
    /\ (lastXML (cached t) = Some (xml (props t)) -> flag = dirty).
Proof.
  exists (isDirty dirty t). split; [reflexivity|].
  split; [apply tab_isDirty_iff|]. unfold isDirty, isXMLChange. split.
  - intros ->. now destruct dirty.
  - intros ->. destruct dirty; [reflexivity|].
    destruct (truthy_string _); simpl; [|reflexivity].
    now rewrite String.eqb_refl.
Qed.

(** *** The sheet switch *)

(** What [Array.prototype.find] answers is the first element that passes
    the test. *)
Lemma find_first {A} (f : A -> bool) (l : list A) (x : A) :
  find f l = Some x ->
  exists pre post,
    l = pre ++ x :: post /\ Forall (fun y => f y = false) pre /\ f x = true.
Proof.
  induction l as [|y l IH]; [discriminate|]. cbn [find].
  destruct (f y) eqn:Hy.
  - intros [= ->]. exists [], l. repeat split; [constructor | exact Hy].
  - intros Hfind. destruct (IH Hfind) as (pre & post & -> & Hpre & Hx).
    exists (y :: pre), post. repeat split; [now constructor | exact Hx].
Qed.

(** X25. With fewer than two sheets no switch is rendered. With two or more it
    needs a sheet of a fallback provider: without one rendering throws.
    Otherwise the button is named after the first fallback provider among
    the providers of the sheets, in their sequence, is highlighted exactly
    when that is the provider of the active sheet, and a click selects the
    first sheet of the sequence that is not the active sheet object (never
    the active one; nothing when every sheet is the active one). *)
Theorem sheet_switch_button (l : list SheetObj) a :
  ((List.length l < 2)%nat -> SheetSwitch l a = inr None)
  /\ ((2 <= List.length l)%nat ->
      (forall s, In s l -> isFallback (provider (fields s)) = false) ->
      SheetSwitch l a = inl typeError)
  /\ ((2 <= List.length l)%nat ->
      forall f, In f l -> isFallback (provider (fields f)) = true ->
      exists b fallback earlier later,
        SheetSwitch l a = inr (Some b)
        /\ map (fun s => provider (fields s)) l
           = earlier ++ fallback :: later
        /\ Forall (fun p => isFallback p = false) earlier
        /\ isFallback fallback = true
        /\ text b = defaultName fallback
        /\ highlighted b = same_provider (provider (fields a)) fallback
        /\ (forall s, target b = Some s ->
              same_sheet s a = false
              /\ exists before after,
                   l = before ++ s :: after
                   /\ Forall (fun x => same_sheet x a = true) before)
        /\ (target b = None -> forall s, In s l -> same_sheet s a = true)
        /\ ((exists s, In s l /\ same_sheet s a = false) ->
            target b <> None)).
Proof.
  unfold SheetSwitch. split; [|split].
  - intros Hlen. apply Nat.ltb_lt in Hlen. now rewrite Hlen.
  - intros Hlen Hnone. apply Nat.ltb_ge in Hlen. rewrite Hlen.
    destruct (find isFallback _) as [p|] eqn:Hf; [|reflexivity].
    apply find_some in Hf. destruct Hf as (Hin & Hp).
    apply in_map_iff in Hin. destruct Hin as (s & <- & Hs).
    apply Hnone in Hs. congruence.
  - intros Hlen f Hin Hfb. apply Nat.ltb_ge in Hlen. rewrite Hlen.
    destruct (find isFallback _) as [p|] eqn:Hf.
    + apply find_first in Hf.
      destruct Hf as (earlier & later & Hsplit & Hearlier & Hpfb).
      eexists. exists p, earlier, later. split; [reflexivity|].
      split; [exact Hsplit|]. split; [exact Hearlier|].
      split; [exact Hpfb|].
      split; [reflexivity|]. split; [reflexivity|].
      assert (Hnone : find (fun sheet => negb (same_sheet sheet a)) l = None ->
                      forall s, In s l -> same_sheet s a = true).
      { intros Hnone s Hs.
        apply (find_none _ _ Hnone) in Hs. now apply negb_false_iff. }
      split; [|split].
      * intros s Ht. cbn [target] in Ht. apply find_first in Ht.
        destruct Ht as (before & after & Hl & Hbefore & Hne).
        split; [now apply negb_true_iff|].
        exists before, after. split; [exact Hl|].
        eapply Forall_impl; [|exact Hbefore].
        intros x Hx. now apply negb_false_iff.
      * exact Hnone.
      * intros (s & Hs & Hne) Ht. cbn [target] in Ht.
        rewrite (Hnone Ht s Hs) in Hne. discriminate.
    + pose proof (find_none _ _ Hf (provider (fields f))
                    (in_map (fun s => provider (fields s)) _ _ Hin)) as Hno.
      congruence.
Qed.

Lemma same_sheet_sym (x y : SheetObj) : same_sheet x y = same_sheet y x.
Proof. apply Nat.eqb_sym. Qed.

(** X26. In a tab of two sheets, one of them of a fallback provider, the switch
    toggles: a click makes the other sheet active, a second click the first
    one again (the editor's [getXML], called when the providers differ,
    resolving both times). *)
Theorem switch_toggles_two_sheets (x y : SheetObj) t :
  sheets (cached t) = Some [x; y] ->
  activeSheet (cached t) = Some x ->
  same_sheet x y = false ->
  isFallback (provider (fields x)) = true
  \/ isFallback (provider (fields y)) = true ->
  (forall e, exists e' xml, editor_getXML e = (e', inr xml)) ->
  exists b1 b2,
    renderedSwitch t = inr (Some b1)
    /\ target b1 = Some y
    /\ let t1 := fst (fst (clickSwitch b1 t)) in
       activeSheet (cached t1) = Some y
       /\ sheets (cached t1) = Some [x; y]
       /\ renderedSwitch t1 = inr (Some b2)
       /\ target b2 = Some x
       /\ activeSheet (cached (fst (fst (clickSwitch b2 t1)))) = Some x.
Proof.
  intros Hs Ha Hxy Hfb Hget.
  assert (Hyx : same_sheet y x = false) by now rewrite same_sheet_sym.
  assert (Hxx : same_sheet x x = true) by apply Nat.eqb_refl.
  assert (Hyy : same_sheet y y = true) by apply Nat.eqb_refl.
  assert (Hswitch : forall sheet a0 t0,
             activeSheet (cached t0) = Some a0 ->
             same_sheet sheet a0 = false ->
             activeSheet (cached (fst (fst (switchSheet sheet t0))))
             = Some sheet
             /\ sheets (cached (fst (fst (switchSheet sheet t0))))
                = sheets (cached t0)).
  { intros sheet a0 t0 Ha0 Hne. unfold switchSheet. rewrite Ha0, Hne.
    destruct (same_provider _ _); [split; reflexivity|].
    destruct (Hget (editor t0)) as (e' & xml & ->). split; reflexivity. }
  assert (Hbutton : forall a0,
             exists b, SheetSwitch [x; y] a0 = inr (Some b)
                       /\ target b
                          = find (fun s => negb (same_sheet s a0)) [x; y]).
  { intros a0. unfold SheetSwitch. cbn [List.length Nat.ltb Nat.leb map find].
    destruct Hfb as [-> | Hy].
    - eexists. split; reflexivity.
    - rewrite Hy. destruct (isFallback (provider (fields x)));
        eexists; split; reflexivity. }
  destruct (Hbutton x) as (b1 & Hb1 & Ht1).
  destruct (Hbutton y) as (b2 & Hb2 & Ht2).
  cbn [find] in Ht1, Ht2. rewrite Hxx, Hyx in Ht1. rewrite Hxy in Ht2.
  cbn [negb] in Ht1, Ht2.
  exists b1, b2.
  assert (Hr : renderedSwitch t = inr (Some b1)).
  { unfold renderedSwitch, renderedActiveSheet, renderedSheets.
    now rewrite Ha, Hs. }
  split; [exact Hr|]. split; [exact Ht1|].
  assert (Hclick : clickSwitch b1 t = switchSheet y t).
  { unfold clickSwitch. now rewrite Ht1. }
  cbv zeta. rewrite Hclick.
  destruct (Hswitch y x t Ha Hyx) as (Ha1 & Hs1). rewrite Hs in Hs1.
  split; [exact Ha1|]. split; [exact Hs1|]. split.
  - unfold renderedSwitch, renderedActiveSheet, renderedSheets.
    now rewrite Ha1, Hs1.
  - split; [exact Ht2|]. unfold clickSwitch. rewrite Ht2.
    exact (proj1 (Hswitch x y _ Ha1 Hxy)).
Qed.


End WithEditor.

(** *** Runs on the test double *)

#[local] Existing Instance Fixture.engine.
#[local] Existing Instance Fixture.editor.
#[local] Existing Instance FixtureMore.actions.

Lemma report_replaces_provider_sheets_witness :
  exists t' l,
    sheetsChanged Fixture.reported None Fixture.tab = inr t'
    /\ sheets (cached t') = Some l
    /\ List.length (filter (ofProvider Fixture.formProvider) (map fields l))
       = 2%nat.
Proof.
  destruct (report_replaces_provider_sheets Fixture.reported None
              Fixture.tab Fixture.formSheet eq_refl)
    as (t' & l & Hrun & Hs & _ & _ & Hlen).
  now exists t', l.
Defined.

Lemma report_caches_new_objects_witness :
  exists t',
    sheetsChanged Fixture.reported None Fixture.tab = inr t'
    /\ activeSheet (cached t') = Some Fixture.formSheet
    /\ ~ activeListed t'.
Proof.
  assert (Hold : (ref Fixture.formSheet < nextRef Fixture.tab)%nat)
    by (vm_compute; lia).
  destruct (report_caches_new_objects Fixture.reported Fixture.tab
              Fixture.formSheet eq_refl Hold)
    as (t' & l & Hrun & _ & Ha & _ & _ & Hnot & _).
  now exists t'.
Defined.

Lemma unknown_active_sheet_blocks_reports_witness :
  exists t',
    sheetsChanged Fixture.reported (Some Fixture.formSheet) Fixture.tab
    = inr t'
    /\ sheetsChanged Fixture.reported None t' = inl typeError.
Proof.
  assert (Hnone : forall s,
             In s (reconciled Fixture.reported Fixture.formSheet Fixture.tab) ->
             id (fields s) <> id (fields Fixture.formSheet)).
  { intros s Hin. vm_compute in Hin.
    destruct Hin as [<-|[<-|[<-|[]]]]; discriminate. }
  destruct (unknown_active_sheet_blocks_reports Fixture.reported
              Fixture.formSheet Fixture.tab Fixture.formSheet eq_refl Hnone)
    as (t' & Hrun & _ & _ & Hblocked & _).
  exists t'. split; [exact Hrun | apply Hblocked].
Defined.

Lemma report_twice_same_sheets_witness :
  exists t1 t2 l1 l2,
    sheetsChanged Fixture.reported None Fixture.tab = inr t1
    /\ sheetsChanged Fixture.reported None t1 = inr t2
    /\ sheets (cached t1) = Some l1
    /\ sheets (cached t2) = Some l2
    /\ map fields l2 = map fields l1.
Proof.
  destruct (report_twice_same_sheets Fixture.reported Fixture.tab
              Fixture.formSheet eq_refl)
    as (t1 & t2 & l1 & l2 & H1 & H2 & Hs1 & Hs2 & Hsame & _).
  now exists t1, t2, l1, l2.
Defined.

Lemma import_error_opens_fallback_witness :
  activeSheet
    (cached (fst (handleImport (Some Fixture.importError) None Fixture.tab)))
  = Some Fixture.jsonSheet.
Proof.
  assert (Hs : sheets (cached Fixture.tab)
               = Some [Fixture.formSheet; Fixture.jsonSheet])
    by reflexivity.
  destruct (import_error_opens_fallback Fixture.importError None
              Fixture.tab _ Hs) as (_ & _ & Hfb & _).
  exact (proj1 (Hfb Fixture.jsonSheet eq_refl)).
Defined.


#[local] Existing Instance Mounted.formEditor_editor.

Lemma switch_toggles_two_sheets_witness :
  exists b1 b2,
    renderedSwitch FixtureMore.formTab = inr (Some b1)
    /\ target b1 = Some Fixture.jsonSheet
    /\ target b2 = Some Fixture.formSheet.
Proof.
  assert (Hget : forall e : FormEditor.FormEditor Fixture.Form,
             exists e' xml, editor_getXML e = (e', inr xml)).
  { intros e. cbn [editor_getXML Mounted.formEditor_editor].
    destruct (FormEditor.getXML e) as [[xml e'] calls]. now exists e', xml. }
  destruct (switch_toggles_two_sheets Fixture.formSheet Fixture.jsonSheet
              FixtureMore.formTab eq_refl eq_refl eq_refl
              (or_intror eq_refl) Hget)
    as (b1 & b2 & Hr & Ht1 & _ & _ & _ & Ht2 & _).
  now exists b1, b2.
Defined.

(** X29. Switching from the form editor, while it is dirty, to a sheet of
    another provider serializes the form: the serialized schema becomes the
    tab's [lastXML], the sheet becomes active, and the form editor is left
    clean, so that a switch back does not serialize again. *)
Theorem leaving_dirty_form_caches_schema {Form json : Type}
    {engine : FormEditor.FormEngine Form json}
    (sheet a : SheetObj) (t : Tab (FormEditor.FormEditor Form)) :
  activeSheet (cached t) = Some a ->
  same_sheet sheet a = false ->
  same_provider (provider (fields sheet)) (provider (fields a)) = false ->
  FormEditor.isDirty (editor t) = true ->
  let t' := fst (fst (switchSheet sheet t)) in
  lastXML (cached t')
  = Some (FormEditor.JSON_stringify
            (FormEditor.form_saveSchema
               (FormEditor.form (FormEditor.cached (editor t)))))
  /\ activeSheet (cached t') = Some sheet
  /\ FormEditor.isDirty (editor t') = false
  /\ snd (FormEditor.getXML (editor t')) = [].
Proof.
  intros Ha Hdistinct Hprov Hdirty. cbv zeta.
  destruct (switchSheet_from_dirty_form sheet a t Ha Hdistinct Hprov Hdirty)
    as (Hlast & Hactive & Hclean).
  repeat split; trivial.
  unfold FormEditor.getXML. now rewrite Hclean.
Qed.

Lemma leaving_dirty_form_caches_schema_witness :
  lastXML
    (cached (fst (fst (switchSheet Fixture.jsonSheet
                                   FixtureMore.editedFormTab))))
  = Some "edited.form".
Proof.
  exact (proj1 (leaving_dirty_form_caches_schema Fixture.jsonSheet
                  Fixture.formSheet FixtureMore.editedFormTab
                  eq_refl eq_refl eq_refl eq_refl)).
Defined.

End MultiSheetTabMoreFacts.
